(** * JupyterHub Prometheus metrics ([jupyterhub/metrics.py])

    A shallow embedding of the metrics module of JupyterHub: the metric
    objects defined at module level, the status enumerations and their
    eager registration, the tornado log hook [prometheus_log_method] and
    the [PeriodicMetricsCollector].

    The module is almost entirely effectful: it registers collectors in the
    process-wide prometheus registry, mutates their samples, queries the
    database, writes log records and schedules a timer on the IO loop.  All
    of this is threaded through one explicit [World], by a state and
    exception monad [M] in which a raised exception keeps the mutations
    performed before it, as in Python. *)

From Stdlib Require Import ZArith QArith DecimalString DecimalZ.
From stdpp Require Import base option list strings sorting gmap fin_maps.

Local Open Scope string_scope.
Local Open Scope list_scope.
Local Open Scope Z_scope.

(** * Python values and protocols *)

(** The objects a request handler may hand back where a number is expected. *)
Inductive PyObj :=
| PyNone
| PyStr (s : string)
| PyInt (z : Z)
| PyFloat (q : Q).

(** [float(o)] where it is defined; floats are idealised as rationals. *)
Definition as_number (o : PyObj) : option Q :=
  match o with
  | PyInt z => Some (inject_Z z)
  | PyFloat q => Some q
  | PyNone | PyStr _ => None
  end.

(** The built-in exceptions that can surface in this module. *)
Inductive Exception :=
| AttributeError (what : string)
| NameError (what : string)
| TypeError (what : string)
| ValueError (what : string)
| KeyError (what : string).

(** The [__str__] protocol: prometheus applies [str()] to every label value. *)
Class HasStr (A : Type) := str : A → string.

Definition str_of_Z (z : Z) : string := NilZero.string_of_int (Z.to_int z).

#[export] Instance string_HasStr : HasStr string := λ s, s.
#[export] Instance Z_HasStr : HasStr Z := str_of_Z.
#[export] Instance nat_HasStr : HasStr nat := λ n, str_of_Z (Z.of_nat n).

(** [enum.Enum]: a class name and, for every member, a name and a value.
    [enum_members] lists the members in definition order, which is the order
    of [for s in E]. *)
Class Enum (E : Type) := {
  enum_class : string;
  enum_members : list E;
  enum_name : E → string;
  enum_value : E → string;
}.

(** [Enum.__str__], inherited by every enumeration that does not define
    [__str__] itself: the class name, a dot and the member's name. *)
Definition Enum_str `{Enum E} (e : E) : string :=
  enum_class +:+ "." +:+ enum_name e.

(** [datetime] values are counted in microseconds; [timedelta(days=n)]. *)
Definition datetime := Z.
Definition timedelta_days (n : Z) : Z := n * 86400 * 1000000.

(** * The prometheus client, as far as the module uses it *)

Module prometheus_client.

Inductive Bound :=
| Finite (q : Q)
| INF.

Inductive MetricType := gauge | histogram.

(** The children of a metric, by label-value tuple (the dict [_metrics]);
    a metric without label names is its own, single series, kept under
    the empty tuple.  A gauge series holds its current value.  A histogram
    series is represented by the observations folded into it so far,
    oldest first: its [_sum] is their sum and its bucket counters count
    them per bucket. *)
Inductive Samples :=
| GaugeValues (values : gmap (list string) Q)
| HistogramValues (upper_bounds : list Bound)
                  (observed : gmap (list string) (list Q)).

(** A metric object; the registry keeps it under its name. *)
Record Metric := mkMetric {
  _documentation : string;
  _labelnames : list string;
  _samples : Samples;
}.

Definition _type (m : Metric) : MetricType :=
  match _samples m with
  | GaugeValues _ => gauge
  | HistogramValues _ _ => histogram
  end.

Definition _upper_bounds (m : Metric) : list Bound :=
  match _samples m with
  | GaugeValues _ => []
  | HistogramValues upper_bounds _ => upper_bounds
  end.

Definition DEFAULT_BUCKETS : list Bound :=
  [Finite 0.005; Finite 0.01; Finite 0.025; Finite 0.05; Finite 0.075;
   Finite 0.1; Finite 0.25; Finite 0.5; Finite 0.75; Finite 1; Finite 2.5;
   Finite 5; Finite 7.5; Finite 10; INF]%Q.

Definition bound_leb (a b : Bound) : bool :=
  match a, b with
  | _, INF => true
  | INF, Finite _ => false
  | Finite x, Finite y => Qle_bool x y
  end.

Fixpoint sorted_bounds (l : list Bound) : bool :=
  match l with
  | a :: (b :: _) as tl => bound_leb a b && sorted_bounds tl
  | _ => true
  end.

Definition is_INF (b : Bound) : bool :=
  match b with INF => true | Finite _ => false end.

(** [Histogram._prepare_buckets]: the boundaries must be sorted, [+Inf] is
    appended unless it already ends the list, and at least two boundaries
    must remain. *)
Definition prepare_buckets (buckets : list Bound) : Exception + list Bound :=
  if negb (sorted_bounds buckets) then inl (ValueError "Buckets not in sorted order")
  else
    let buckets :=
      match last buckets with
      | Some b => if is_INF b then buckets else buckets ++ [INF]
      | None => buckets
      end in
    if (length buckets <? 2)%nat then inl (ValueError "Must have at least two buckets")
    else inr buckets.

(** The time series a collector exports, which the registry keeps unique. *)
Definition type_suffixes (t : MetricType) : list string :=
  match t with
  | gauge => []
  | histogram => ["_bucket"; "_sum"; "_count"; "_created"]
  end.

Definition get_names (t : MetricType) (name : string) : list string :=
  name :: ((λ suffix, name +:+ suffix) <$> type_suffixes t).

(** Exposition: the cumulative count of the bucket [le="b"], and the
    [_count] and [_sum] samples of a histogram series. *)
Definition in_bucket (b : Bound) (x : Q) : bool :=
  match b with
  | INF => true
  | Finite q => Qle_bool x q
  end.

Definition bucket_count (b : Bound) (observations : list Q) : nat :=
  length (List.filter (in_bucket b) observations).

Definition sum_of (observations : list Q) : Q :=
  foldr Qplus 0%Q observations.

End prometheus_client.
Export prometheus_client.

(** * Tornado's periodic callbacks *)

Module tornado.

(** The attributes of a [PeriodicCallback(callback, callback_time, jitter)]:
    [callback_time] is in milliseconds and [jitter] is the fraction of it
    within which the loop adjusts every step at random.  The callback is
    kept as data of type [C]. *)
Record PeriodicCallback (C : Type) := mkPeriodicCallback {
  callback : C;
  callback_time : Q;
  jitter : Q;
}.
Arguments mkPeriodicCallback {C}.
Arguments callback {C}.
Arguments callback_time {C}.
Arguments jitter {C}.

End tornado.
Export tornado.

(** * The users table *)

Module orm.

(** Modelled from the spec: [orm.User], the persisted user record, which
    lives in [jupyterhub/orm.py].  Of a user the collector reads only the
    last-activity timestamp; a user who was never active has none. *)
Record User := mkUser {
  name : string;
  last_activity : option datetime;
}.

(** [db.query(User).filter(User.last_activity >= cutoff).count()]: a
    comparison with a missing timestamp selects nothing. *)
Definition active_since (cutoff : datetime) (u : User) : bool :=
  match last_activity u with
  | Some t => cutoff <=? t
  | None => false
  end.

Definition count_active_since (cutoff : datetime) (users : list User) : nat :=
  length (List.filter (active_since cutoff) users).

End orm.

(** * The world the module runs in *)

(** The configurable traits of [PeriodicMetricsCollector].  Its [db] trait is
    the session on the users table, which is part of the [World]. *)
Record PeriodicMetricsCollector := mkCollector {
  active_users_metrics_enabled : bool;
  active_users_metrics_update_period : Z;
}.

(** What a periodic callback of this module runs: the bound method
    [self.update]. *)
Inductive Callback :=
| update_of (self : PeriodicMetricsCollector).

(** The interactions with the collaborators of the module, in the order in
    which they happen. *)
Inductive Event :=
| CountQuery (cutoff : datetime)
| LogInfo (message : string)
| TimerStart (pc : PeriodicCallback Callback).

Record World := mkWorld {
  REGISTRY : gmap string Metric;
  users : list orm.User;
  io_loop : list (PeriodicCallback Callback);
  trace : list Event;
}.

Definition set_REGISTRY (r : gmap string Metric) (w : World) : World :=
  {| REGISTRY := r; users := users w; io_loop := io_loop w; trace := trace w |}.

Definition emit (e : Event) (w : World) : World :=
  {| REGISTRY := REGISTRY w; users := users w; io_loop := io_loop w;
     trace := trace w ++ [e] |}.

Definition add_timer (pc : PeriodicCallback Callback) (w : World) : World :=
  {| REGISTRY := REGISTRY w; users := users w; io_loop := io_loop w ++ [pc];
     trace := trace w |}.

(** ** The monad of statements *)

Inductive Result (A : Type) :=
| Ok (a : A)
| Raise (e : Exception).
Arguments Ok {A}.
Arguments Raise {A}.

Definition M (A : Type) : Type := World → Result A * World.

#[export] Instance M_ret : MRet M := λ A a w, (Ok a, w).

#[export] Instance M_bind : MBind M := λ A B f m w,
  match m w with
  | (Ok a, w') => f a w'
  | (Raise e, w') => (Raise e, w')
  end.

Definition raise {A} (e : Exception) : M A := λ w, (Raise e, w).
Definition gets {A} (f : World → A) : M A := λ w, (Ok (f w), w).
Definition modify (f : World → World) : M unit := λ w, (Ok tt, f w).

(** [for x in xs: body(x)] *)
Fixpoint for_ {A} (xs : list A) (body : A → M unit) : M unit :=
  match xs with
  | [] => mret tt
  | x :: xs => body x;; for_ xs body
  end.

(** Reading an attribute that may be missing. *)
Definition getattr {A} (attr : string) (o : option A) : M A :=
  match o with
  | Some a => mret a
  | None => raise (AttributeError attr)
  end.

(** ** Collectors in the registry

    A module-level metric object is referred to by the name under which the
    registry holds it, and one of its series by that name and the tuple of
    its label values. *)

Definition lookup_global (name : string) : M Metric :=
  r ← gets REGISTRY;
  match r !! name with
  | Some m => mret m
  | None => raise (NameError name)
  end.

Definition update_global (name : string) (m : Metric) : M unit :=
  modify (λ w, set_REGISTRY (<[name := m]> (REGISTRY w)) w).

(** All time series names the registered collectors claim. *)
Definition names_to_collectors (r : gmap string Metric) : list string :=
  map_to_list r ≫= (λ kv, get_names (_type kv.2) kv.1).

(** [CollectorRegistry.register] *)
Definition register (name : string) (m : Metric) : M unit :=
  r ← gets REGISTRY;
  if bool_decide (Exists (λ n, n ∈ names_to_collectors r) (get_names (_type m) name))
  then raise (ValueError "Duplicated timeseries in CollectorRegistry")
  else update_global name m.

Definition reserved_labelnames (t : MetricType) : list string :=
  match t with
  | gauge => []
  | histogram => ["le"]
  end.

Definition with_samples (samples : Samples) (m : Metric) : Metric :=
  {| _documentation := _documentation m; _labelnames := _labelnames m;
     _samples := samples |}.

(** [_metric_init] on a series with label values [labelvalues]: a gauge
    starts at zero, a histogram with no observation. *)
Definition metric_init (labelvalues : list string) (samples : Samples) : Samples :=
  match samples with
  | GaugeValues values => GaugeValues (<[labelvalues := 0%Q]> values)
  | HistogramValues upper_bounds observed =>
      HistogramValues upper_bounds (<[labelvalues := []]> observed)
  end.

Definition has_child (labelvalues : list string) (samples : Samples) : bool :=
  match samples with
  | GaugeValues values => bool_decide (is_Some (values !! labelvalues))
  | HistogramValues _ observed => bool_decide (is_Some (observed !! labelvalues))
  end.

(** [MetricWrapperBase.__init__]: reserved label names are refused, a metric
    without label names is initialised at once, and the metric registers
    itself.  [empty] is the metric's kind, with no series yet. *)
Definition MetricWrapperBase (empty : Samples) (name documentation : string)
    (labelnames : list string) : M unit :=
  let m := {| _documentation := documentation; _labelnames := labelnames;
              _samples := if bool_decide (labelnames = [])
                          then metric_init [] empty else empty |} in
  if bool_decide (Exists (λ l, l ∈ reserved_labelnames (_type m)) labelnames)
  then raise (ValueError "Reserved label metric name")
  else register name m.

Definition Gauge (name documentation : string) (labelnames : list string) : M unit :=
  MetricWrapperBase (GaugeValues ∅) name documentation labelnames.

Definition Histogram (name documentation : string) (labelnames : list string)
    (buckets : list Bound) : M unit :=
  match prepare_buckets buckets with
  | inl e => raise e
  | inr upper_bounds =>
      MetricWrapperBase (HistogramValues upper_bounds ∅) name documentation labelnames
  end.

Definition sorted : list string → list string := merge_sort String.le.

Fixpoint kwarg (l : string) (labelkwargs : list (string * string)) : option string :=
  match labelkwargs with
  | [] => None
  | (k, v) :: rest => if String.eqb k l then Some v else kwarg l rest
  end.

(** [MetricWrapperBase.labels] called with keyword arguments, the values
    already passed through [str()]: returns the child for these label
    values, creating an empty one if there is none yet. *)
Definition labels (name : string) (labelkwargs : list (string * string))
    : M (list string) :=
  m ← lookup_global name;
  if bool_decide (_labelnames m = [])
  then raise (ValueError "No label names were set when constructing the metric")
  else if negb (bool_decide (sorted (labelkwargs.*1) = sorted (_labelnames m)))
  then raise (ValueError "Incorrect label names")
  else
    match mapM (λ l, kwarg l labelkwargs) (_labelnames m) with
    | None => raise (KeyError "label")
    | Some labelvalues =>
        (if has_child labelvalues (_samples m) then mret tt
         else update_global name (with_samples (metric_init labelvalues (_samples m)) m));;
        mret labelvalues
    end.

(** A metric with label names is only observable through a child. *)
Definition is_observable (m : Metric) (labelvalues : list string) : bool :=
  (length labelvalues =? length (_labelnames m))%nat.

(** [Histogram.observe(amount)] on the series [labelvalues] of [name]: the
    amount is added to the sum first, which fails for what is not a
    number, before any bucket is touched. *)
Definition observe (name : string) (labelvalues : list string) (amount : PyObj)
    : M unit :=
  m ← lookup_global name;
  match _samples m with
  | GaugeValues _ => raise (AttributeError "observe")
  | HistogramValues upper_bounds observed =>
      if negb (is_observable m labelvalues)
      then raise (ValueError "histogram metric is missing label values")
      else
        match observed !! labelvalues with
        | None => raise (KeyError "series")
        | Some observations =>
            match as_number amount with
            | None => raise (TypeError "unsupported operand type(s) for +=")
            | Some x =>
                update_global name
                  (with_samples
                     (HistogramValues upper_bounds
                        (<[labelvalues := observations ++ [x]]> observed)) m)
            end
        end
  end.

(** [Gauge.set(value)] on the series [labelvalues] of [name]. *)
Definition Gauge_set (name : string) (labelvalues : list string) (value : Q)
    : M unit :=
  m ← lookup_global name;
  match _samples m with
  | HistogramValues _ _ => raise (AttributeError "set")
  | GaugeValues values =>
      if negb (is_observable m labelvalues)
      then raise (ValueError "gauge metric is missing label values")
      else update_global name
             (with_samples (GaugeValues (<[labelvalues := value]> values)) m)
  end.

(** ** Collaborators: the database session, the logger, the IO loop *)

Definition query_count_active_since (cutoff : datetime) : M nat := λ w,
  (Ok (orm.count_active_since cutoff (users w)), emit (CountQuery cutoff) w).

Definition log_info (message : string) : M unit := modify (emit (LogInfo message)).

(** [PeriodicCallback.__init__]: a callback time that is not positive is
    refused. *)
Definition PeriodicCallback_init (callback : Callback) (callback_time jitter : Q)
    : M (PeriodicCallback Callback) :=
  if Qle_bool callback_time 0
  then raise (ValueError "Periodic callback must have a positive callback_time")
  else mret {| callback := callback; callback_time := callback_time;
               jitter := jitter |}.

(** [PeriodicCallback.start] *)
Definition PeriodicCallback_start (pc : PeriodicCallback Callback) : M unit :=
  modify (λ w, add_timer pc (emit (TimerStart pc) w)).

(** Reading the samples, as an exporter that scrapes the registry does:
    the observations of a histogram series and the value of a gauge series,
    [None] where there is no such series. *)
Definition observations (w : World) (name : string) (labelvalues : list string)
    : option (list Q) :=
  m ← REGISTRY w !! name;
  match _samples m with
  | HistogramValues _ observed => observed !! labelvalues
  | GaugeValues _ => None
  end.

Definition gauge_value (w : World) (name : string) (labelvalues : list string)
    : option Q :=
  m ← REGISTRY w !! name;
  match _samples m with
  | GaugeValues values => values !! labelvalues
  | HistogramValues _ _ => None
  end.

(** ** The request context handed to the log function

    What [prometheus_log_method] reads from a tornado [RequestHandler].  An
    attribute or method that the object does not provide is [None] here,
    and reading it raises [AttributeError]. *)

Record HTTPServerRequest := mkRequest {
  method : option string;
  uri : string;
  request_time : option PyObj;
}.

Record RequestHandler := mkHandler {
  class_module : string;
  class_name : string;
  request : option HTTPServerRequest;
  get_status : option Z;
}.

(** * jupyterhub.metrics *)

Module metrics.

Definition REQUEST_DURATION_SECONDS := "jupyterhub_request_duration_seconds".
Definition SERVER_SPAWN_DURATION_SECONDS := "jupyterhub_server_spawn_duration_seconds".
Definition RUNNING_SERVERS := "jupyterhub_running_servers".
Definition TOTAL_USERS := "jupyterhub_total_users".
Definition DAILY_ACTIVE_USERS := "jupyterhub_daily_active_users".
Definition MONTHLY_ACTIVE_USERS := "jupyterhub_monthly_active_users".
Definition CHECK_ROUTES_DURATION_SECONDS := "jupyterhub_check_routes_duration_seconds".
Definition HUB_STARTUP_DURATION_SECONDS := "jupyterhub_hub_startup_duration_seconds".
Definition INIT_SPAWNERS_DURATION_SECONDS := "jupyterhub_init_spawners_duration_seconds".
Definition PROXY_POLL_DURATION_SECONDS := "jupyterhub_proxy_poll_duration_seconds".
Definition PROXY_ADD_DURATION_SECONDS := "jupyterhub_proxy_add_duration_seconds".
Definition SERVER_POLL_DURATION_SECONDS := "jupyterhub_server_poll_duration_seconds".
Definition SERVER_STOP_DURATION_SECONDS := "jupyterhub_server_stop_seconds".
Definition PROXY_DELETE_DURATION_SECONDS := "jupyterhub_proxy_delete_duration_seconds".

(** The custom buckets of the spawn histogram. *)
Definition SERVER_SPAWN_BUCKETS : list Bound :=
  [Finite 0.5; Finite 1; Finite 2.5; Finite 5; Finite 10; Finite 15;
   Finite 30; Finite 60; Finite 120; INF]%Q.

(** ** The status enumerations *)

Module ServerSpawnStatus.
Inductive t := success | failure | already_pending | throttled | too_many_users.

#[global] Instance enum : Enum t := {|
  enum_class := "ServerSpawnStatus";
  enum_members := [success; failure; already_pending; throttled; too_many_users];
  enum_name := λ s, match s with
    | success => "success" | failure => "failure"
    | already_pending => "already_pending" | throttled => "throttled"
    | too_many_users => "too_many_users" end;
  enum_value := λ s, match s with
    | success => "success" | failure => "failure"
    | already_pending => "already-pending" | throttled => "throttled"
    | too_many_users => "too-many-users" end;
|}.

(** [def __str__(self): return self.value] *)
#[global] Instance has_str : HasStr t := enum_value.
End ServerSpawnStatus.

Module ProxyAddStatus.
Inductive t := success | failure.

#[global] Instance enum : Enum t := {|
  enum_class := "ProxyAddStatus";
  enum_members := [success; failure];
  enum_name := λ s, match s with success => "success" | failure => "failure" end;
  enum_value := λ s, match s with success => "success" | failure => "failure" end;
|}.

(** [def __str__(self): return self.value] *)
#[global] Instance has_str : HasStr t := enum_value.
End ProxyAddStatus.

Module ServerPollStatus.
Inductive t := running | stopped.

#[global] Instance enum : Enum t := {|
  enum_class := "ServerPollStatus";
  enum_members := [running; stopped];
  enum_name := λ s, match s with running => "running" | stopped => "stopped" end;
  enum_value := λ s, match s with running => "running" | stopped => "stopped" end;
|}.

(** The class defines no [__str__]: [str()] is that of [Enum]. *)
#[global] Instance has_str : HasStr t := Enum_str.

(** [from_status(cls, status)]: [status] is whatever the spawner's poll
    returned, [None] while the server runs. *)
Definition from_status {A} (status : option A) : t :=
  match status with
  | None => running
  | Some _ => stopped
  end.
End ServerPollStatus.

Module ServerStopStatus.
Inductive t := success | failure.

#[global] Instance enum : Enum t := {|
  enum_class := "ServerStopStatus";
  enum_members := [success; failure];
  enum_name := λ s, match s with success => "success" | failure => "failure" end;
  enum_value := λ s, match s with success => "success" | failure => "failure" end;
|}.

(** [def __str__(self): return self.value] *)
#[global] Instance has_str : HasStr t := enum_value.
End ServerStopStatus.

Module ProxyDeleteStatus.
Inductive t := success | failure.

#[global] Instance enum : Enum t := {|
  enum_class := "ProxyDeleteStatus";
  enum_members := [success; failure];
  enum_name := λ s, match s with success => "success" | failure => "failure" end;
  enum_value := λ s, match s with success => "success" | failure => "failure" end;
|}.

(** [def __str__(self): return self.value] *)
#[global] Instance has_str : HasStr t := enum_value.
End ProxyDeleteStatus.

(** [for s in E: metric.labels(status=s)] *)
Definition create_empty_metrics (E : Type) `{Enum E, HasStr E} (metric : string)
    : M unit :=
  for_ (enum_members (E := E)) (λ s, labels metric [("status", str s)];; mret tt).

(** ** The statements executed when the module is imported, in order *)

Definition module_body : M unit :=
  Histogram REQUEST_DURATION_SECONDS
    "request duration for all HTTP requests"
    ["method"; "handler"; "code"] DEFAULT_BUCKETS;;
  Histogram SERVER_SPAWN_DURATION_SECONDS
    "time taken for server spawning operation"
    ["status"] SERVER_SPAWN_BUCKETS;;
  Gauge RUNNING_SERVERS "the number of user servers currently running" [];;
  Gauge TOTAL_USERS "total number of users" [];;
  Gauge DAILY_ACTIVE_USERS "number of users who were active in the last 24h" [];;
  Gauge MONTHLY_ACTIVE_USERS "number of users who were active in the last 30d" [];;
  Histogram CHECK_ROUTES_DURATION_SECONDS
    "Time taken to validate all routes in proxy" [] DEFAULT_BUCKETS;;
  Histogram HUB_STARTUP_DURATION_SECONDS
    "Time taken for Hub to start" [] DEFAULT_BUCKETS;;
  Histogram INIT_SPAWNERS_DURATION_SECONDS
    "Time taken for spawners to initialize" [] DEFAULT_BUCKETS;;
  Histogram PROXY_POLL_DURATION_SECONDS
    "duration for polling all routes from proxy" [] DEFAULT_BUCKETS;;
  create_empty_metrics ServerSpawnStatus.t SERVER_SPAWN_DURATION_SECONDS;;
  Histogram PROXY_ADD_DURATION_SECONDS
    "duration for adding user routes to proxy" ["status"] DEFAULT_BUCKETS;;
  create_empty_metrics ProxyAddStatus.t PROXY_ADD_DURATION_SECONDS;;
  Histogram SERVER_POLL_DURATION_SECONDS
    "time taken to poll if server is running" ["status"] DEFAULT_BUCKETS;;
  create_empty_metrics ServerPollStatus.t SERVER_POLL_DURATION_SECONDS;;
  Histogram SERVER_STOP_DURATION_SECONDS
    "time taken for server stopping operation" ["status"] DEFAULT_BUCKETS;;
  create_empty_metrics ServerStopStatus.t SERVER_STOP_DURATION_SECONDS;;
  Histogram PROXY_DELETE_DURATION_SECONDS
    "duration for deleting user routes from proxy" ["status"] DEFAULT_BUCKETS;;
  create_empty_metrics ProxyDeleteStatus.t PROXY_DELETE_DURATION_SECONDS.

(** ** The request hook *)

Definition handler_label (handler : RequestHandler) : string :=
  class_module handler +:+ "." +:+ class_name handler.

Definition prometheus_log_method (handler : RequestHandler) : M unit :=
  req ← getattr "request" (request handler);
  http_method ← getattr "method" (method req);
  code ← getattr "get_status" (get_status handler);
  child ← labels REQUEST_DURATION_SECONDS
    [("method", str http_method); ("handler", str (handler_label handler));
     ("code", str code)];
  req ← getattr "request" (request handler);
  amount ← getattr "request_time" (request_time req);
  observe REQUEST_DURATION_SECONDS child amount.

(** ** The periodic collector *)

(** [update(self)]; [now1] and [now2] are what the two calls of
    [datetime.now()] return. *)
Definition update (self : PeriodicMetricsCollector) (now1 now2 : datetime)
    : M unit :=
  let daily_cutoff := now1 - timedelta_days 1 in
  let monthly_cutoff := now2 - timedelta_days 30 in
  daily_active_users ← query_count_active_since daily_cutoff;
  monthly_active_users ← query_count_active_since monthly_cutoff;
  Gauge_set DAILY_ACTIVE_USERS [] (inject_Z (Z.of_nat daily_active_users));;
  Gauge_set MONTHLY_ACTIVE_USERS [] (inject_Z (Z.of_nat monthly_active_users));;
  log_info ("Found " +:+ str daily_active_users +:+ " active users in the last 24h");;
  log_info ("Found " +:+ str monthly_active_users +:+ " active users in the last 30d").


(** [start(self)]; [now1] and [now2] are the clock readings of the update
    it runs. *)
Definition start (self : PeriodicMetricsCollector) (now1 now2 : datetime)
    : M unit :=
  if active_users_metrics_enabled self then
    pc ← PeriodicCallback_init (update_of self)
           (inject_Z (active_users_metrics_update_period self * 1000)) 0.01%Q;
    PeriodicCallback_start pc;;
    update self now1 now2
  else mret tt.

End metrics.

(** The world before the module is imported, and once it has been. *)
Definition fresh (users : list orm.User) : World :=
  {| REGISTRY := ∅; users := users; io_loop := []; trace := [] |}.

Definition imported (users : list orm.User) : World :=
  (metrics.module_body (fresh users)).2.

(** * Vocabulary of the statements *)

(** The metric [name] is a gauge without label names, as [Gauge(name, doc)]
    creates it. *)
Definition unlabelled_gauge (w : World) (name : string) : bool :=
  match REGISTRY w !! name with
  | Some m =>
      match _samples m with
      | GaugeValues _ => bool_decide (_labelnames m = [])
      | HistogramValues _ _ => false
      end
  | None => false
  end.

(** The metric [name] is a histogram with the label names [labelnames]. *)
Definition labelled_histogram (w : World) (name : string) (labelnames : list string)
    : bool :=
  match REGISTRY w !! name with
  | Some m =>
      match _samples m with
      | HistogramValues _ _ => bool_decide (_labelnames m = labelnames)
      | GaugeValues _ => false
      end
  | None => false
  end.

(** What is fixed when a metric is defined. *)
Definition schema (m : Metric) : MetricType * string * list string * list Bound :=
  (_type m, _documentation m, _labelnames m, _upper_bounds m).

(** The registries of [w] and [w'] hold the same metrics with the same
    schemas, and the same samples in every series except those listed in
    [changed]. *)
Definition same_registry_except (changed : list (string * list string))
    (w w' : World) : Prop :=
  (∀ name, schema <$> REGISTRY w' !! name = schema <$> REGISTRY w !! name) ∧
  (∀ name labelvalues, (name, labelvalues) ∉ changed →
     observations w' name labelvalues = observations w name labelvalues ∧
     gauge_value w' name labelvalues = gauge_value w name labelvalues).

(** The number of observations a histogram series has folded in; none for a
    series that does not exist. *)
Definition observation_count (w : World) (name : string) (labelvalues : list string)
    : nat :=
  from_option length 0%nat (observations w name labelvalues).

(** The request context provides everything the hook extracts: the request
    with its method, the status code, and a duration that is a number. *)
Definition extractable (handler : RequestHandler) : bool :=
  match request handler with
  | Some req =>
      match method req, get_status handler, request_time req with
      | Some _, Some _, Some amount => bool_decide (is_Some (as_number amount))
      | _, _, _ => false
      end
  | None => false
  end.

(** The states of the collector: it is running once a periodic callback on
    its [update] is armed on the IO loop. *)
Inductive CollectorState := Idle | Running.

#[export] Instance MetricType_eq_dec : EqDecision MetricType.
Proof. solve_decision. Defined.

#[export] Instance PeriodicMetricsCollector_eq_dec : EqDecision PeriodicMetricsCollector.
Proof. solve_decision. Defined.

#[export] Instance Callback_eq_dec : EqDecision Callback.
Proof. solve_decision. Defined.

Definition collector_state (self : PeriodicMetricsCollector) (w : World)
    : CollectorState :=
  if bool_decide (Exists (λ pc, callback pc = update_of self) (io_loop w))
  then Running else Idle.


(** [sub in s] on strings. *)
Fixpoint contains (sub s : string) : bool :=
  String.prefix sub s ||
  match s with
  | EmptyString => false
  | String _ s' => contains sub s'
  end.

(** The clock offsets of the two cutoffs, in microseconds. *)
Definition hours_24 : Z := 24 * 3600 * 1000000.
Definition days_30 : Z := 30 * 24 * 3600 * 1000000.

(** The label names of the request histogram. *)
Definition REQUEST_LABELNAMES : list string := ["method"; "handler"; "code"].

(** The world in which the histogram [name], which is [m] with the bounds
    [upper_bounds] and the series [observed], has the observations [obs] in
    its series [key]. *)
Definition with_series (name : string) (m : Metric) (upper_bounds : list Bound)
    (observed : gmap (list string) (list Q)) (key : list string) (obs : list Q)
    (w : World) : World :=
  set_REGISTRY
    (<[name := with_samples
                 (HistogramValues upper_bounds (<[key := obs]> observed)) m]>
       (REGISTRY w)) w.

(** The same request context, for another URL path. *)
Definition with_uri (path : string) (handler : RequestHandler) : RequestHandler :=
  {| class_module := class_module handler;
     class_name := class_name handler;
     request := (λ req, {| method := method req; uri := path;
                           request_time := request_time req |})
                <$> request handler;
     get_status := get_status handler |}.

(** ** Sample inputs *)

(** Three users: one active a moment ago, one never active, one active
    exactly 25 hours before [sample_now]. *)
Definition sample_now : datetime := 1700000000 * 1000000.

Definition sample_users : list orm.User :=
  [orm.mkUser "ada" (Some (sample_now - 1000000));
   orm.mkUser "bob" None;
   orm.mkUser "cyd" (Some (sample_now - 25 * 3600 * 1000000))].

Definition sample_world : World := imported sample_users.

Definition sample_collector : PeriodicMetricsCollector :=
  {| active_users_metrics_enabled := true;
     active_users_metrics_update_period := 3600 |}.


Definition disabled_collector : PeriodicMetricsCollector :=
  {| active_users_metrics_enabled := false;
     active_users_metrics_update_period := 3600 |}.

Definition sample_handler : RequestHandler :=
  {| class_module := "jupyterhub.handlers.pages";
     class_name := "HomeHandler";
     request := Some {| method := Some "GET"; uri := "/hub/home";
                        request_time := Some (PyFloat 0.25) |};
     get_status := Some 200 |}.

(** The same request, without a duration and with one that is no number. *)
Definition handler_without_duration : RequestHandler :=
  {| class_module := "jupyterhub.handlers.pages";
     class_name := "HomeHandler";
     request := Some {| method := Some "GET"; uri := "/hub/home";
                        request_time := None |};
     get_status := Some 200 |}.

Definition handler_with_malformed_duration : RequestHandler :=
  {| class_module := "jupyterhub.handlers.pages";
     class_name := "HomeHandler";
     request := Some {| method := Some "GET"; uri := "/hub/home";
                        request_time := Some (PyStr "soon") |};
     get_status := Some 200 |}.

(** ** Vocabulary of the further properties *)

(** The names of the metrics the module defines, in the order of their
    definition. *)
Definition METRIC_NAMES : list string :=
  [metrics.REQUEST_DURATION_SECONDS; metrics.SERVER_SPAWN_DURATION_SECONDS;
   metrics.RUNNING_SERVERS; metrics.TOTAL_USERS; metrics.DAILY_ACTIVE_USERS;
   metrics.MONTHLY_ACTIVE_USERS; metrics.CHECK_ROUTES_DURATION_SECONDS;
   metrics.HUB_STARTUP_DURATION_SECONDS; metrics.INIT_SPAWNERS_DURATION_SECONDS;
   metrics.PROXY_POLL_DURATION_SECONDS; metrics.PROXY_ADD_DURATION_SECONDS;
   metrics.SERVER_POLL_DURATION_SECONDS; metrics.SERVER_STOP_DURATION_SECONDS;
   metrics.PROXY_DELETE_DURATION_SECONDS].

(** The world with one more row in the users table. *)
Definition add_user (u : orm.User) (w : World) : World :=
  {| REGISTRY := REGISTRY w; users := u :: users w; io_loop := io_loop w;
     trace := trace w |}.

(** From [w] to [w'] nothing happened but, possibly, the creation of series
    without observations: the collaborators, the schemas, the gauge values
    and the observations of every series that existed are the same. *)
Definition only_adds_empty_series (w w' : World) : Prop :=
  users w' = users w ∧ io_loop w' = io_loop w ∧ trace w' = trace w ∧
  (∀ name, schema <$> REGISTRY w' !! name = schema <$> REGISTRY w !! name) ∧
  (∀ name labelvalues,
     gauge_value w' name labelvalues = gauge_value w name labelvalues) ∧
  (∀ name labelvalues,
     observations w' name labelvalues = observations w name labelvalues ∨
     (observations w name labelvalues = None ∧
      observations w' name labelvalues = Some [])).

(** The series and the value the hook records for a request context that
    provides all it extracts. *)
Definition recorded (handler : RequestHandler) : option (list string * Q) :=
  req ← request handler;
  http_method ← method req;
  code ← get_status handler;
  amount ← request_time req;
  x ← as_number amount;
  Some ([http_method; metrics.handler_label handler; str code], x).

(** The durations of the requests among [handlers] that fall into the
    series [key], in the order of the requests. *)
Definition durations_for (key : list string) (handlers : list RequestHandler)
    : list Q :=
  omap (λ handler,
          match recorded handler with
          | Some (k, x) => if decide (k = key) then Some x else None
          | None => None
          end) handlers.

(** * Running the monad *)

Lemma bind_Ok {A B} (c : M A) (k : A → M B) w a w' :
  c w = (Ok a, w') → (c ≫= k) w = k a w'.
Proof. intros H. unfold mbind, M_bind. now rewrite H. Qed.

Lemma bind_Raise {A B} (c : M A) (k : A → M B) w e w' :
  c w = (Raise e, w') → (c ≫= k) w = (Raise e, w').
Proof. intros H. unfold mbind, M_bind. now rewrite H. Qed.

Ltac run :=
  cbv [mbind M_bind mret M_ret gets modify raise lookup_global update_global
       getattr log_info query_count_active_since PeriodicCallback_start].

(** * The module at import *)

Import metrics.

(** Importing the module raises nothing. *)
Lemma module_body_ok us : (module_body (fresh us)).1 = Ok tt.
Proof. vm_compute. reflexivity. Qed.

(** Importing touches neither the users table, the IO loop nor the trace. *)
Lemma imported_collaborators us :
  users (imported us) = us ∧ io_loop (imported us) = [] ∧ trace (imported us) = [].
Proof. repeat split; vm_compute; reflexivity. Qed.

(** C5: [ServerPollStatus.from_status] is total on nullable process-status
    values; it returns [running] for [None] and [stopped] for every value
    that is not [None], whatever it is. *)
Theorem from_status_total (A : Type) :
  ServerPollStatus.from_status (@None A) = ServerPollStatus.running ∧
  ∀ v : A, ServerPollStatus.from_status (Some v) = ServerPollStatus.stopped.
Proof. split; [reflexivity | intros v; reflexivity]. Qed.

(** Falsy statuses such as the exit code [0] are not [None]. *)
Example from_status_exit_code_0 :
  ServerPollStatus.from_status (Some 0) = ServerPollStatus.stopped.
Proof. reflexivity. Qed.

(** C9: the server-spawn duration histogram is registered under the name
    [jupyterhub_server_spawn_duration_seconds], with the single label name
    [status] and the bucket boundaries 0.5, 1, 2.5, 5, 10, 15, 30, 60, 120
    and +inf, in this order. *)
Theorem server_spawn_histogram_schema (us : list orm.User) :
  SERVER_SPAWN_DURATION_SECONDS = "jupyterhub_server_spawn_duration_seconds" ∧
  _type <$> REGISTRY (imported us) !! "jupyterhub_server_spawn_duration_seconds"
    = Some histogram ∧
  _labelnames <$> REGISTRY (imported us) !! "jupyterhub_server_spawn_duration_seconds"
    = Some ["status"] ∧
  _upper_bounds <$> REGISTRY (imported us) !! "jupyterhub_server_spawn_duration_seconds"
    = Some [Finite 0.5; Finite 1; Finite 2.5; Finite 5; Finite 10; Finite 15;
            Finite 30; Finite 60; Finite 120; INF]%Q.
Proof. repeat split; vm_compute; reflexivity. Qed.

(** The names of the histograms of the module: all but one carry
    [_duration_]. *)
Lemma histogram_names us :
  Forall (λ kv, _type kv.2 = histogram →
                kv.1 ≠ SERVER_STOP_DURATION_SECONDS →
                contains "_duration_" kv.1 = true)
         (map_to_list (REGISTRY (imported us))).
Proof.
  apply Forall_forall. intros [name m] Hin.
  cut (negb (bool_decide (_type m = histogram))
       || bool_decide (name = SERVER_STOP_DURATION_SECONDS)
       || contains "_duration_" name = true).
  { simpl. intros Hb Ht Hn.
    rewrite (bool_decide_eq_true_2 _ Ht) in Hb.
    rewrite (bool_decide_eq_false_2 _ Hn) in Hb. exact Hb. }
  revert name m Hin.
  cut (forallb (λ kv, negb (bool_decide (_type kv.2 = histogram))
                      || bool_decide (kv.1 = SERVER_STOP_DURATION_SECONDS)
                      || contains "_duration_" kv.1)
               (map_to_list (REGISTRY (imported us))) = true).
  { intros Hall name m Hin. rewrite forallb_forall in Hall.
    apply list_elem_of_In in Hin. exact (Hall (name, m) Hin). }
  vm_compute. reflexivity.
Qed.

(** C10: the server-stop duration histogram is registered under the name
    [jupyterhub_server_stop_seconds].  The name has no [_duration_]
    component, which the name of every other histogram of the module has,
    and the registry exports no time series whose name starts with
    [jupyterhub_server_stop_duration_seconds]. *)
Theorem server_stop_histogram_name (us : list orm.User) :
  SERVER_STOP_DURATION_SECONDS = "jupyterhub_server_stop_seconds" ∧
  _type <$> REGISTRY (imported us) !! "jupyterhub_server_stop_seconds"
    = Some histogram ∧
  contains "_duration_" SERVER_STOP_DURATION_SECONDS = false ∧
  (∀ name m, REGISTRY (imported us) !! name = Some m →
             _type m = histogram →
             name ≠ SERVER_STOP_DURATION_SECONDS →
             contains "_duration_" name = true) ∧
  REGISTRY (imported us) !! "jupyterhub_server_stop_duration_seconds" = None ∧
  Forall (λ n, String.prefix "jupyterhub_server_stop_duration_seconds" n = false)
         (names_to_collectors (REGISTRY (imported us))).
Proof.
  split; [reflexivity |].
  split; [vm_compute; reflexivity |].
  split; [vm_compute; reflexivity |].
  split.
  { intros name m Hm Ht Hn.
    pose proof (histogram_names us) as Hall.
    rewrite Forall_forall in Hall.
    apply (Hall (name, m)); [| exact Ht | exact Hn].
    apply elem_of_map_to_list. exact Hm. }
  split; [vm_compute; reflexivity |].
  apply Forall_fold_right.
  vm_compute. repeat split.
Qed.

(** The enumerations that define [__str__] get one empty series per value. *)
Lemma status_series_created (us : list orm.User) :
  Forall (λ s : ServerSpawnStatus.t,
            observations (imported us) SERVER_SPAWN_DURATION_SECONDS [enum_value s]
            = Some []) enum_members ∧
  Forall (λ s : ProxyAddStatus.t,
            observations (imported us) PROXY_ADD_DURATION_SECONDS [enum_value s]
            = Some []) enum_members ∧
  Forall (λ s : ServerStopStatus.t,
            observations (imported us) SERVER_STOP_DURATION_SECONDS [enum_value s]
            = Some []) enum_members ∧
  Forall (λ s : ProxyDeleteStatus.t,
            observations (imported us) PROXY_DELETE_DURATION_SECONDS [enum_value s]
            = Some []) enum_members.
Proof. repeat split; apply Forall_fold_right; vm_compute; repeat split. Qed.

(** C2, at the server-poll histogram: after import it has no series for the
    status values [running] and [stopped].  The two series the import
    creates carry the labels [ServerPollStatus.running] and
    [ServerPollStatus.stopped], what [str()] gives for a member of an
    enumeration without [__str__]. *)
Theorem server_poll_series_labels (us : list orm.User) :
  Forall (λ s : ServerPollStatus.t,
            observations (imported us) SERVER_POLL_DURATION_SECONDS [enum_value s]
            = None ∧
            observations (imported us) SERVER_POLL_DURATION_SECONDS
              ["ServerPollStatus." +:+ enum_name s] = Some [])
         enum_members.
Proof. apply Forall_fold_right; vm_compute; repeat split. Qed.

(** * Gauges and the frame of a registry update *)

Lemma DAILY_ne_MONTHLY : DAILY_ACTIVE_USERS ≠ MONTHLY_ACTIVE_USERS.
Proof. discriminate. Qed.

Lemma unlabelled_gauge_inv w name :
  unlabelled_gauge w name = true →
  ∃ m values, REGISTRY w !! name = Some m ∧ _samples m = GaugeValues values ∧
              _labelnames m = [].
Proof.
  unfold unlabelled_gauge. intros H.
  destruct (REGISTRY w !! name) as [m |]; [| discriminate].
  destruct (_samples m) as [values | ub obs] eqn:Hs; [| discriminate].
  apply bool_decide_eq_true in H. eauto.
Qed.

Lemma Gauge_set_run w name m values v :
  REGISTRY w !! name = Some m → _samples m = GaugeValues values →
  _labelnames m = [] →
  Gauge_set name [] v w =
    (Ok tt, set_REGISTRY
              (<[name := with_samples (GaugeValues (<[[] := v]> values)) m]>
                 (REGISTRY w)) w).
Proof.
  intros Hm Hs Hl. unfold Gauge_set. run.
  rewrite Hm, Hs. unfold is_observable. rewrite Hl. reflexivity.
Qed.

Lemma same_registry_except_trans c1 c2 w w1 w2 :
  same_registry_except c1 w w1 → same_registry_except c2 w1 w2 →
  same_registry_except (c1 ++ c2) w w2.
Proof.
  intros [Hs1 Hv1] [Hs2 Hv2]. split.
  - intros name. now rewrite Hs2, Hs1.
  - intros name lv Hn. rewrite elem_of_app in Hn.
    destruct (Hv1 name lv) as [Ho1 Hg1]; [tauto |].
    destruct (Hv2 name lv) as [Ho2 Hg2]; [tauto |].
    split; congruence.
Qed.

(** Replacing the samples of one metric by samples of the same kind that
    agree outside the series [lv]. *)
Lemma same_registry_except_insert w w' name lv m samples :
  REGISTRY w !! name = Some m →
  REGISTRY w' = <[name := with_samples samples m]> (REGISTRY w) →
  match _samples m, samples with
  | GaugeValues vs, GaugeValues vs' => ∀ k, k ≠ lv → vs' !! k = vs !! k
  | HistogramValues ub obs, HistogramValues ub' obs' =>
      ub' = ub ∧ ∀ k, k ≠ lv → obs' !! k = obs !! k
  | _, _ => False
  end →
  same_registry_except [(name, lv)] w w'.
Proof.
  intros Hm Hw' Hsame. split.
  - intros n. rewrite Hw'. destruct (decide (name = n)) as [<- |].
    + rewrite lookup_insert_eq, Hm. simpl. f_equal.
      unfold schema, _type, _upper_bounds. simpl.
      destruct (_samples m), samples; try contradiction; [reflexivity |].
      destruct Hsame as [-> _]. reflexivity.
    + now rewrite lookup_insert_ne.
  - intros n k Hn. unfold observations, gauge_value. rewrite Hw'.
    destruct (decide (name = n)) as [<- |].
    + rewrite lookup_insert_eq, Hm. simpl.
      assert (k ≠ lv) as Hk.
      { intros ->. apply Hn. apply list_elem_of_singleton. reflexivity. }
      destruct (_samples m), samples; try contradiction.
      * split; [reflexivity | now apply Hsame].
      * destruct Hsame as [_ Hsame]. split; [now apply Hsame | reflexivity].
    + now rewrite lookup_insert_ne.
Qed.

(** * The periodic collector *)

Section update.
Context (self : PeriodicMetricsCollector) (w : World).
Context (m_daily m_monthly : Metric) (v_daily v_monthly : gmap (list string) Q).
Hypothesis daily_bound : REGISTRY w !! DAILY_ACTIVE_USERS = Some m_daily.
Hypothesis daily_gauge : _samples m_daily = GaugeValues v_daily.
Hypothesis daily_unlabelled : _labelnames m_daily = [].
Hypothesis monthly_bound : REGISTRY w !! MONTHLY_ACTIVE_USERS = Some m_monthly.
Hypothesis monthly_gauge : _samples m_monthly = GaugeValues v_monthly.
Hypothesis monthly_unlabelled : _labelnames m_monthly = [].

(** The world one run of [update] leaves behind. *)
Lemma update_run (now1 now2 : datetime) :
  let daily := orm.count_active_since (now1 - timedelta_days 1) (users w) in
  let monthly := orm.count_active_since (now2 - timedelta_days 30) (users w) in
  update self now1 now2 w =
    (Ok tt,
     {| REGISTRY :=
          <[MONTHLY_ACTIVE_USERS :=
              with_samples
                (GaugeValues (<[[] := inject_Z (Z.of_nat monthly)]> v_monthly))
                m_monthly]>
            (<[DAILY_ACTIVE_USERS :=
                 with_samples
                   (GaugeValues (<[[] := inject_Z (Z.of_nat daily)]> v_daily))
                   m_daily]> (REGISTRY w));
        users := users w;
        io_loop := io_loop w;
        trace := trace w ++
          [CountQuery (now1 - timedelta_days 1);
           CountQuery (now2 - timedelta_days 30);
           LogInfo ("Found " +:+ str daily +:+ " active users in the last 24h");
           LogInfo ("Found " +:+ str monthly +:+ " active users in the last 30d")]
     |}).
Proof.
  intros daily monthly. unfold update.
  erewrite bind_Ok; [| reflexivity].
  erewrite bind_Ok; [| reflexivity].
  erewrite bind_Ok;
    [| eapply Gauge_set_run; [exact daily_bound | exact daily_gauge
                             | exact daily_unlabelled]].
  erewrite bind_Ok;
    [| eapply Gauge_set_run;
       [ simpl; rewrite lookup_insert_ne by exact DAILY_ne_MONTHLY;
         exact monthly_bound
       | exact monthly_gauge | exact monthly_unlabelled]].
  erewrite bind_Ok; [| reflexivity].
  unfold log_info, modify, emit, set_REGISTRY. simpl.
  rewrite <- !app_assoc. reflexivity.
Qed.

(** [update] changes nothing in the registry but the two gauge values. *)
Lemma update_frame now1 now2 :
  same_registry_except [(DAILY_ACTIVE_USERS, []); (MONTHLY_ACTIVE_USERS, [])]
    w (update self now1 now2 w).2.
Proof.
  rewrite update_run. simpl.
  pose (daily := orm.count_active_since (now1 - timedelta_days 1) (users w)).
  pose (w1 := set_REGISTRY
                (<[DAILY_ACTIVE_USERS :=
                     with_samples
                       (GaugeValues (<[[] := inject_Z (Z.of_nat daily)]> v_daily))
                       m_daily]>
                   (REGISTRY w)) w).
  apply (same_registry_except_trans [_] [_] w w1).
  - eapply same_registry_except_insert; [exact daily_bound | reflexivity |].
    rewrite daily_gauge. intros k Hk. now rewrite lookup_insert_ne.
  - eapply same_registry_except_insert with (m := m_monthly);
      [| reflexivity |].
    + simpl. rewrite lookup_insert_ne by exact DAILY_ne_MONTHLY.
      exact monthly_bound.
    + rewrite monthly_gauge. intros k Hk. now rewrite lookup_insert_ne.
Qed.
End update.

Lemma cutoffs_in_microseconds :
  timedelta_days 1 = hours_24 ∧ timedelta_days 30 = days_30.
Proof. split; reflexivity. Qed.

(** C1: for every clock value [now] and every users table, [update] returns
    normally, sets the daily-active-users gauge to the number of users whose
    last activity is at or after [now - 24h] and the monthly-active-users
    gauge to the number of those whose last activity is at or after
    [now - 30d], and changes nothing else: every other series and every
    metric's schema, the users table and the IO loop are as before.  Its
    interactions are the two count queries and two log records. *)
Theorem update_sets_active_user_gauges
    (self : PeriodicMetricsCollector) (now : datetime) (w : World) :
  unlabelled_gauge w DAILY_ACTIVE_USERS = true →
  unlabelled_gauge w MONTHLY_ACTIVE_USERS = true →
  let daily := orm.count_active_since (now - hours_24) (users w) in
  let monthly := orm.count_active_since (now - days_30) (users w) in
  let w' := (update self now now w).2 in
  (update self now now w).1 = Ok tt ∧
  gauge_value w' DAILY_ACTIVE_USERS [] = Some (inject_Z (Z.of_nat daily)) ∧
  gauge_value w' MONTHLY_ACTIVE_USERS [] = Some (inject_Z (Z.of_nat monthly)) ∧
  same_registry_except
    [(DAILY_ACTIVE_USERS, []); (MONTHLY_ACTIVE_USERS, [])] w w' ∧
  users w' = users w ∧
  io_loop w' = io_loop w ∧
  trace w' = trace w ++
    [CountQuery (now - hours_24); CountQuery (now - days_30);
     LogInfo ("Found " +:+ str daily +:+ " active users in the last 24h");
     LogInfo ("Found " +:+ str monthly +:+ " active users in the last 30d")].
Proof.
  intros Hd Hm.
  destruct (unlabelled_gauge_inv _ _ Hd) as (md & vd & Hd1 & Hd2 & Hd3).
  destruct (unlabelled_gauge_inv _ _ Hm) as (mm & vm & Hm1 & Hm2 & Hm3).
  intros daily monthly w'.
  pose proof (update_frame self w md mm vd vm Hd1 Hd2 Hd3 Hm1 Hm2 Hm3 now now)
    as Hframe.
  pose proof (update_run self w md mm vd vm Hd1 Hd2 Hd3 Hm1 Hm2 Hm3 now now)
    as Hrun.
  cbv zeta in Hrun. fold w' in Hframe.
  destruct cutoffs_in_microseconds as [E1 E30]. rewrite E1, E30 in Hrun.
  fold daily monthly in Hrun.
  subst w'. rewrite Hrun in *. simpl.
  split; [reflexivity |]. split; [| split; [| split]].
  - unfold gauge_value. simpl.
    rewrite lookup_insert_ne by (apply not_eq_sym, DAILY_ne_MONTHLY).
    rewrite lookup_insert_eq. simpl. apply lookup_insert_eq.
  - unfold gauge_value. simpl.
    rewrite lookup_insert_eq. simpl. apply lookup_insert_eq.
  - exact Hframe.
  - repeat split; reflexivity.
Qed.

Lemma update_sets_active_user_gauges_witness :
  unlabelled_gauge sample_world DAILY_ACTIVE_USERS = true ∧
  unlabelled_gauge sample_world MONTHLY_ACTIVE_USERS = true ∧
  (update sample_collector sample_now sample_now sample_world).1 = Ok tt ∧
  gauge_value (update sample_collector sample_now sample_now sample_world).2
    DAILY_ACTIVE_USERS [] = Some 1%Q ∧
  gauge_value (update sample_collector sample_now sample_now sample_world).2
    MONTHLY_ACTIVE_USERS [] = Some 2%Q.
Proof.
  assert (unlabelled_gauge sample_world DAILY_ACTIVE_USERS = true) as Hd
    by (vm_compute; reflexivity).
  assert (unlabelled_gauge sample_world MONTHLY_ACTIVE_USERS = true) as Hm
    by (vm_compute; reflexivity).
  destruct (update_sets_active_user_gauges sample_collector sample_now
              sample_world Hd Hm) as (Hok & Hdaily & Hmonthly & _).
  split; [exact Hd |]. split; [exact Hm |]. split; [exact Hok |]. split.
  - rewrite Hdaily. reflexivity.
  - rewrite Hmonthly. reflexivity.
Defined.

(** C8: with the clock and the users table unchanged, a second [update]
    right after the first returns normally and leaves both active-user
    gauges, and the whole registry, as the first one left them. *)
Theorem update_idempotent_on_gauges
    (self : PeriodicMetricsCollector) (now : datetime) (w : World) :
  unlabelled_gauge w DAILY_ACTIVE_USERS = true →
  unlabelled_gauge w MONTHLY_ACTIVE_USERS = true →
  let w1 := (update self now now w).2 in
  let w2 := (update self now now w1).2 in
  (update self now now w1).1 = Ok tt ∧
  gauge_value w2 DAILY_ACTIVE_USERS [] = gauge_value w1 DAILY_ACTIVE_USERS [] ∧
  gauge_value w2 MONTHLY_ACTIVE_USERS [] = gauge_value w1 MONTHLY_ACTIVE_USERS [] ∧
  REGISTRY w2 = REGISTRY w1.
Proof.
  intros Hd Hm.
  destruct (unlabelled_gauge_inv _ _ Hd) as (md & vd & Hd1 & Hd2 & Hd3).
  destruct (unlabelled_gauge_inv _ _ Hm) as (mm & vm & Hm1 & Hm2 & Hm3).
  intros w1 w2.
  pose proof (update_run self w md mm vd vm Hd1 Hd2 Hd3 Hm1 Hm2 Hm3 now now)
    as Hrun1.
  cbv zeta in Hrun1.
  assert (users w1 = users w) as Hu by (subst w1; now rewrite Hrun1).
  assert (REGISTRY w1 !! DAILY_ACTIVE_USERS = Some
            (with_samples
               (GaugeValues
                  (<[[] := inject_Z (Z.of_nat
                      (orm.count_active_since (now - timedelta_days 1) (users w)))]>
                     vd)) md)) as Hd1'.
  { subst w1. rewrite Hrun1. simpl.
    rewrite lookup_insert_ne by (apply not_eq_sym, DAILY_ne_MONTHLY).
    apply lookup_insert_eq. }
  assert (REGISTRY w1 !! MONTHLY_ACTIVE_USERS = Some
            (with_samples
               (GaugeValues
                  (<[[] := inject_Z (Z.of_nat
                      (orm.count_active_since (now - timedelta_days 30) (users w)))]>
                     vm)) mm)) as Hm1'.
  { subst w1. rewrite Hrun1. simpl. apply lookup_insert_eq. }
  pose proof (update_run self w1 _ _ _ _ Hd1' eq_refl Hd3 Hm1' eq_refl Hm3 now now)
    as Hrun2.
  cbv zeta in Hrun2. fold w2 in Hrun2.
  assert (REGISTRY w2 = REGISTRY w1) as HR.
  { subst w2. rewrite Hrun2. simpl. rewrite Hu.
    unfold with_samples. simpl. rewrite !insert_insert_eq.
    rewrite (insert_id _ DAILY_ACTIVE_USERS) by exact Hd1'.
    rewrite (insert_id _ MONTHLY_ACTIVE_USERS) by exact Hm1'.
    reflexivity. }
  split; [subst w2; now rewrite Hrun2 |].
  unfold gauge_value. rewrite HR. auto.
Qed.

Lemma update_idempotent_on_gauges_witness :
  unlabelled_gauge sample_world DAILY_ACTIVE_USERS = true ∧
  unlabelled_gauge sample_world MONTHLY_ACTIVE_USERS = true ∧
  let w1 := (update sample_collector sample_now sample_now sample_world).2 in
  let w2 := (update sample_collector sample_now sample_now w1).2 in
  gauge_value w2 DAILY_ACTIVE_USERS [] = gauge_value w1 DAILY_ACTIVE_USERS [] ∧
  gauge_value w2 MONTHLY_ACTIVE_USERS [] = gauge_value w1 MONTHLY_ACTIVE_USERS [].
Proof.
  assert (unlabelled_gauge sample_world DAILY_ACTIVE_USERS = true) as Hd
    by (vm_compute; reflexivity).
  assert (unlabelled_gauge sample_world MONTHLY_ACTIVE_USERS = true) as Hm
    by (vm_compute; reflexivity).
  destruct (update_idempotent_on_gauges sample_collector sample_now
              sample_world Hd Hm) as (_ & Hdaily & Hmonthly & _).
  split; [exact Hd |]. split; [exact Hm |]. split; [exact Hdaily | exact Hmonthly].
Defined.

(** C7: when the collector is disabled, [start] returns at once and leaves
    the world exactly as it was: no count query is issued and nothing is
    logged (the trace is the same), no timer is armed (the IO loop is the
    same), every gauge keeps its value, and the collector is in the state
    it was in, so an idle collector stays idle. *)
Theorem start_disabled_is_noop
    (self : PeriodicMetricsCollector) (now1 now2 : datetime) (w : World) :
  active_users_metrics_enabled self = false →
  start self now1 now2 w = (Ok tt, w) ∧
  trace (start self now1 now2 w).2 = trace w ∧
  io_loop (start self now1 now2 w).2 = io_loop w ∧
  (∀ name labelvalues,
     gauge_value (start self now1 now2 w).2 name labelvalues
     = gauge_value w name labelvalues) ∧
  (collector_state self w = Idle →
   collector_state self (start self now1 now2 w).2 = Idle).
Proof.
  intros Hoff. unfold start. rewrite Hoff.
  repeat split; auto.
Qed.

Lemma start_disabled_is_noop_witness :
  active_users_metrics_enabled disabled_collector = false ∧
  start disabled_collector sample_now sample_now sample_world = (Ok tt, sample_world) ∧
  collector_state disabled_collector
    (start disabled_collector sample_now sample_now sample_world).2 = Idle.
Proof.
  destruct (start_disabled_is_noop disabled_collector sample_now sample_now
              sample_world eq_refl) as (Hrun & _ & _ & _ & Hidle).
  split; [reflexivity |]. split; [exact Hrun |].
  apply Hidle. vm_compute. reflexivity.
Defined.






(** * The request hook *)

Lemma labelled_histogram_inv w name labelnames :
  labelled_histogram w name labelnames = true →
  ∃ m upper_bounds observed,
    REGISTRY w !! name = Some m ∧
    _samples m = HistogramValues upper_bounds observed ∧
    _labelnames m = labelnames.
Proof.
  unfold labelled_histogram. intros H.
  destruct (REGISTRY w !! name) as [m |]; [| discriminate].
  destruct (_samples m) as [values | ub obs] eqn:Hs; [discriminate |].
  apply bool_decide_eq_true in H. exists m, ub, obs. auto.
Qed.

Section request_hook.
Context (w : World) (m : Metric) (upper_bounds : list Bound).
Context (observed : gmap (list string) (list Q)).
Hypothesis bound : REGISTRY w !! REQUEST_DURATION_SECONDS = Some m.
Hypothesis is_histogram : _samples m = HistogramValues upper_bounds observed.
Hypothesis labelnames : _labelnames m = REQUEST_LABELNAMES.

(** [labels] returns the label values in the order of the label names and
    makes sure their series exists. *)
Lemma labels_request_run (v_method v_handler v_code : string) :
  let key := [v_method; v_handler; v_code] in
  labels REQUEST_DURATION_SECONDS
    [("method", v_method); ("handler", v_handler); ("code", v_code)] w =
    (Ok key,
     match observed !! key with
     | Some _ => w
     | None => with_series REQUEST_DURATION_SECONDS m upper_bounds observed key [] w
     end).
Proof.
  intros key. unfold labels. run.
  rewrite bound, labelnames. unfold REQUEST_LABELNAMES.
  rewrite bool_decide_eq_false_2 by discriminate.
  rewrite bool_decide_eq_true_2 by reflexivity. simpl.
  rewrite is_histogram. simpl. fold key.
  destruct (observed !! key) as [obs |] eqn:Hk.
  - rewrite bool_decide_eq_true_2 by eauto. reflexivity.
  - rewrite bool_decide_eq_false_2 by (intros [? ?]; discriminate).
    reflexivity.
Qed.

(** [observe] on a series that exists, in a world that differs from [w]
    at most in that series. *)
Lemma observe_request_run key obs amount w1 :
  length key = 3%nat →
  w1 = w ∧ observed !! key = Some obs ∨ w1 = with_series REQUEST_DURATION_SECONDS m upper_bounds observed key obs w →
  observe REQUEST_DURATION_SECONDS key amount w1 =
    match as_number amount with
    | Some x => (Ok tt, with_series REQUEST_DURATION_SECONDS m upper_bounds observed key (obs ++ [x]) w)
    | None => (Raise (TypeError "unsupported operand type(s) for +="), w1)
    end.
Proof.
  intros Hlen Hw1. unfold observe. run.
  destruct Hw1 as [[-> Hk] | ->].
  - rewrite bound, is_histogram. unfold is_observable.
    rewrite labelnames, Hlen. simpl. rewrite Hk.
    destruct (as_number amount); reflexivity.
  - simpl. rewrite lookup_insert_eq. simpl. unfold is_observable. simpl.
    rewrite labelnames, Hlen. simpl. rewrite lookup_insert_eq.
    destruct (as_number amount); [| reflexivity].
    unfold with_series, set_REGISTRY, with_samples. simpl.
    now rewrite !insert_insert_eq.
Qed.

(** Creating an empty series records no observation. *)
Lemma empty_series_counts key name labelvalues :
  observed !! key = None →
  observation_count (with_series REQUEST_DURATION_SECONDS m upper_bounds observed key [] w) name labelvalues
  = observation_count w name labelvalues.
Proof.
  intros Hk. unfold observation_count, observations. simpl.
  destruct (decide (REQUEST_DURATION_SECONDS = name)) as [<- |].
  - rewrite lookup_insert_eq, bound. simpl. rewrite is_histogram.
    destruct (decide (key = labelvalues)) as [<- |].
    + now rewrite lookup_insert_eq, Hk.
    + now rewrite lookup_insert_ne.
  - now rewrite lookup_insert_ne.
Qed.

(** What the hook does, case by case. *)
Lemma prometheus_log_method_run (handler : RequestHandler) :
  prometheus_log_method handler w =
    match request handler with
    | None => (Raise (AttributeError "request"), w)
    | Some req =>
        match method req with
        | None => (Raise (AttributeError "method"), w)
        | Some v_method =>
            match get_status handler with
            | None => (Raise (AttributeError "get_status"), w)
            | Some code =>
                let key := [v_method; handler_label handler; str code] in
                let w1 := match observed !! key with
                          | Some _ => w
                          | None => with_series REQUEST_DURATION_SECONDS m upper_bounds observed key [] w
                          end in
                match request_time req with
                | None => (Raise (AttributeError "request_time"), w1)
                | Some amount =>
                    match as_number amount with
                    | None =>
                        (Raise (TypeError "unsupported operand type(s) for +="), w1)
                    | Some x =>
                        (Ok tt,
                         with_series REQUEST_DURATION_SECONDS m upper_bounds
                           observed key (default [] (observed !! key) ++ [x]) w)
                    end
                end
            end
        end
    end.
Proof.
  unfold prometheus_log_method.
  destruct (request handler) as [req |]; [| reflexivity].
  erewrite bind_Ok; [| reflexivity].
  destruct (method req) as [v_method |]; [| reflexivity].
  erewrite bind_Ok; [| reflexivity].
  destruct (get_status handler) as [code |]; [| reflexivity].
  erewrite bind_Ok; [| reflexivity].
  erewrite bind_Ok; [| apply labels_request_run].
  erewrite bind_Ok; [| reflexivity].
  cbv zeta.
  change (@str string string_HasStr) with (λ s : string, s). cbv beta.
  set (key := [v_method; handler_label handler; str code]).
  destruct (request_time req) as [amount |]; [| reflexivity].
  erewrite bind_Ok; [| reflexivity].
  rewrite (observe_request_run key (default [] (observed !! key)));
    [reflexivity | reflexivity |].
  destruct (observed !! key) as [obs |]; [left | right]; auto.
Qed.
End request_hook.

(** The hook does not look at the URL path of the request. *)
Lemma prometheus_log_method_ignores_uri (path : string) (handler : RequestHandler) :
  prometheus_log_method (with_uri path handler) = prometheus_log_method handler.
Proof. destruct handler as [cm cn [[me u rt] |] st]; reflexivity. Qed.

(** Closes the cases in which the hook raises. *)
Ltac raised_early :=
  simpl; split; [discriminate | split; [eauto | auto]].

(** C4, as the code has it: the hook has no error handling of its own.  It
    returns normally when the request context provides the request, its
    method, the status code and a duration that is a number; when one of
    them is missing, or the duration is not a number, it raises, and the
    exception reaches the caller.  Whenever it raises, no observation has
    been recorded in any series. *)
Theorem prometheus_log_method_raises_unless_extractable
    (handler : RequestHandler) (w : World) :
  labelled_histogram w REQUEST_DURATION_SECONDS REQUEST_LABELNAMES = true →
  (extractable handler = true → (prometheus_log_method handler w).1 = Ok tt) ∧
  (extractable handler = false →
   ∃ e, (prometheus_log_method handler w).1 = Raise e) ∧
  (∀ e, (prometheus_log_method handler w).1 = Raise e →
   ∀ name labelvalues,
     observation_count (prometheus_log_method handler w).2 name labelvalues
     = observation_count w name labelvalues).
Proof.
  intros Hh.
  destruct (labelled_histogram_inv _ _ _ Hh) as (m & ub & obs & Hm & Hs & Hl).
  rewrite (prometheus_log_method_run w m ub obs Hm Hs Hl handler).
  unfold extractable.
  destruct (request handler) as [req |]; [| raised_early].
  destruct (method req) as [v_method |]; [| raised_early].
  destruct (get_status handler) as [code |]; [| raised_early].
  cbv zeta.
  set (key := [v_method; handler_label handler; str code]).
  assert (∀ name labelvalues,
            observation_count
              match obs !! key with
              | Some _ => w
              | None => with_series REQUEST_DURATION_SECONDS m ub obs key [] w
              end name labelvalues
            = observation_count w name labelvalues) as Hcount.
  { intros name lv. destruct (obs !! key) eqn:Hk; [reflexivity |].
    now apply empty_series_counts. }
  destruct (request_time req) as [amount |]; [| raised_early].
  destruct (as_number amount) as [x |]; simpl.
  - split; [reflexivity |]. split; discriminate.
  - raised_early.
Qed.

Lemma prometheus_log_method_raises_unless_extractable_witness :
  labelled_histogram sample_world REQUEST_DURATION_SECONDS REQUEST_LABELNAMES = true ∧
  (prometheus_log_method sample_handler sample_world).1 = Ok tt ∧
  (∃ e, (prometheus_log_method handler_with_malformed_duration sample_world).1
        = Raise e).
Proof.
  assert (labelled_histogram sample_world REQUEST_DURATION_SECONDS
            REQUEST_LABELNAMES = true) as Hh by (vm_compute; reflexivity).
  split; [exact Hh |]. split.
  - apply (prometheus_log_method_raises_unless_extractable sample_handler
             sample_world Hh). reflexivity.
  - apply (prometheus_log_method_raises_unless_extractable
             handler_with_malformed_duration sample_world Hh). reflexivity.
Defined.

(** C4, as stated, fails: a request context without a duration, or with a
    duration that is not a number, makes the hook raise. *)
Lemma prometheus_log_method_raises :
  (prometheus_log_method handler_without_duration sample_world).1
  = Raise (AttributeError "request_time") ∧
  (prometheus_log_method handler_with_malformed_duration sample_world).1
  = Raise (TypeError "unsupported operand type(s) for +=").
Proof. split; vm_compute; reflexivity. Qed.

(** C6: for a request context that provides its method, its status code and
    a numeric duration, the hook returns normally and records exactly one
    observation: the duration is appended to the series of the
    request-duration histogram whose labels are the method, the handler's
    class module and class name joined by a dot, and the status code; no
    other series, no schema and nothing outside the registry changes.  The
    URL path of the request plays no part. *)
Theorem prometheus_log_method_records_one_observation
    (handler : RequestHandler) (w : World) (req : HTTPServerRequest)
    (http_method : string) (code : Z) (amount : PyObj) (duration : Q) :
  labelled_histogram w REQUEST_DURATION_SECONDS REQUEST_LABELNAMES = true →
  request handler = Some req →
  method req = Some http_method →
  get_status handler = Some code →
  request_time req = Some amount →
  as_number amount = Some duration →
  let key := [http_method;
              class_module handler +:+ "." +:+ class_name handler;
              str_of_Z code] in
  let w' := (prometheus_log_method handler w).2 in
  (prometheus_log_method handler w).1 = Ok tt ∧
  observations w' REQUEST_DURATION_SECONDS key
  = Some (default [] (observations w REQUEST_DURATION_SECONDS key) ++ [duration]) ∧
  same_registry_except [(REQUEST_DURATION_SECONDS, key)] w w' ∧
  users w' = users w ∧ io_loop w' = io_loop w ∧ trace w' = trace w ∧
  ∀ path, prometheus_log_method (with_uri path handler) w
          = prometheus_log_method handler w.
Proof.
  intros Hh Hreq Hmeth Hcode Htime Hnum key w'.
  destruct (labelled_histogram_inv _ _ _ Hh) as (m & ub & obs & Hm & Hs & Hl).
  pose proof (prometheus_log_method_run w m ub obs Hm Hs Hl handler) as Hrun.
  rewrite Hreq, Hmeth, Hcode in Hrun. cbv zeta in Hrun.
  rewrite Htime, Hnum in Hrun.
  change [http_method; handler_label handler; str code] with key in Hrun.
  assert (observations w REQUEST_DURATION_SECONDS key = obs !! key) as Hobs.
  { unfold observations. rewrite Hm. simpl. now rewrite Hs. }
  subst w'. rewrite Hrun. simpl.
  split; [reflexivity |]. split; [| split; [| split; [| split; [| split]]]];
    try reflexivity.
  - rewrite Hobs. unfold observations. simpl.
    rewrite lookup_insert_eq. simpl. apply lookup_insert_eq.
  - eapply same_registry_except_insert; [exact Hm | reflexivity |].
    rewrite Hs. split; [reflexivity |].
    intros k Hk. now rewrite lookup_insert_ne.
  - intros path. now rewrite prometheus_log_method_ignores_uri.
Qed.

Lemma prometheus_log_method_records_one_observation_witness :
  observations (prometheus_log_method sample_handler sample_world).2
    REQUEST_DURATION_SECONDS ["GET"; "jupyterhub.handlers.pages.HomeHandler"; "200"]
  = Some [0.25%Q].
Proof.
  assert (labelled_histogram sample_world REQUEST_DURATION_SECONDS
            REQUEST_LABELNAMES = true) as Hh by (vm_compute; reflexivity).
  destruct (prometheus_log_method_records_one_observation sample_handler
              sample_world _ "GET" 200 (PyFloat 0.25) 0.25%Q
              Hh eq_refl eq_refl eq_refl eq_refl eq_refl) as (_ & Hobs & _).
  exact Hobs.
Defined.

(** * Further properties *)

(** ** Importing the module *)

(** X1: importing the module into a fresh process raises nothing: no bucket
    list is refused and no two metrics claim the same time series.  It
    registers the fourteen metrics of the module and nothing else, and
    touches neither the users table, the IO loop nor the trace. *)
Theorem module_import_registers_metrics (us : list orm.User) :
  module_body (fresh us) = (Ok tt, imported us) ∧
  Forall (λ name, is_Some (REGISTRY (imported us) !! name)) METRIC_NAMES ∧
  size (REGISTRY (imported us)) = length METRIC_NAMES ∧
  users (imported us) = us ∧
  io_loop (imported us) = [] ∧
  trace (imported us) = [].
Proof.
  split.
  { unfold imported. pose proof (module_body_ok us) as Hok.
    destruct (module_body (fresh us)) as [r w]. simpl in *. now subst. }
  split.
  { apply Forall_fold_right.
    cut (forallb (λ name, bool_decide (is_Some (REGISTRY (imported us) !! name)))
           METRIC_NAMES = true).
    { intros Hall. rewrite forallb_forall in Hall.
      apply Forall_fold_right, Forall_forall. intros name Hin.
      apply list_elem_of_In, Hall in Hin. now apply bool_decide_eq_true in Hin. }
    vm_compute. reflexivity. }
  split; [vm_compute; reflexivity |].
  apply imported_collaborators.
Qed.

(** X2: executing the module body where the name of its first metric is
    already taken fails at that first statement with the registry's
    [ValueError], and changes nothing. *)
Theorem module_body_twice_raises (w : World) (m : Metric) :
  REGISTRY w !! REQUEST_DURATION_SECONDS = Some m →
  module_body w
  = (Raise (ValueError "Duplicated timeseries in CollectorRegistry"), w).
Proof.
  intros Hm. unfold module_body. apply bind_Raise.
  unfold Histogram.
  change (prepare_buckets DEFAULT_BUCKETS) with (inr (A := Exception) DEFAULT_BUCKETS).
  unfold MetricWrapperBase.
  rewrite (bool_decide_eq_false_2 (["method"; "handler"; "code"] = []))
    by discriminate.
  rewrite bool_decide_eq_false_2.
  2:{ simpl. rewrite !Exists_cons, Exists_nil.
      intros [H | [H | [H | []]]];
        apply list_elem_of_singleton in H; discriminate. }
  unfold register. run.
  rewrite bool_decide_eq_true_2; [reflexivity |].
  apply Exists_cons_hd. unfold names_to_collectors.
  apply list_elem_of_bind. exists (REQUEST_DURATION_SECONDS, m). split.
  - simpl. left.
  - now apply elem_of_map_to_list.
Qed.

Lemma module_body_twice_raises_witness :
  (module_body (imported [])).1
  = Raise (ValueError "Duplicated timeseries in CollectorRegistry").
Proof.
  destruct (REGISTRY (imported []) !! REQUEST_DURATION_SECONDS) as [m |] eqn:Hm;
    [| vm_compute in Hm; discriminate].
  now rewrite (module_body_twice_raises (imported []) m Hm).
Defined.

(** ** The counts of active users *)

Lemma count_active_since_antitone (c1 c2 : datetime) (us : list orm.User) :
  c1 <= c2 →
  (orm.count_active_since c2 us <= orm.count_active_since c1 us)%nat.
Proof.
  intros Hc. unfold orm.count_active_since.
  induction us as [| u us IH]; simpl; [lia |].
  destruct (orm.active_since c2 u) eqn:E2, (orm.active_since c1 u) eqn:E1;
    simpl; try lia.
  unfold orm.active_since in E1, E2.
  destruct (orm.last_activity u) as [t |]; [| discriminate]. lia.
Qed.

Lemma count_active_since_le_length (c : datetime) (us : list orm.User) :
  (orm.count_active_since c us <= length us)%nat.
Proof.
  unfold orm.count_active_since.
  induction us as [| u us IH]; simpl; [lia |].
  destruct (orm.active_since c u); simpl; lia.
Qed.

(** The gauge values [update] leaves, for any two clock readings. *)
Lemma update_gauge_values self now1 now2 w :
  unlabelled_gauge w DAILY_ACTIVE_USERS = true →
  unlabelled_gauge w MONTHLY_ACTIVE_USERS = true →
  (update self now1 now2 w).1 = Ok tt ∧
  gauge_value (update self now1 now2 w).2 DAILY_ACTIVE_USERS []
  = Some (inject_Z (Z.of_nat
            (orm.count_active_since (now1 - hours_24) (users w)))) ∧
  gauge_value (update self now1 now2 w).2 MONTHLY_ACTIVE_USERS []
  = Some (inject_Z (Z.of_nat
            (orm.count_active_since (now2 - days_30) (users w)))) ∧
  unlabelled_gauge (update self now1 now2 w).2 DAILY_ACTIVE_USERS = true ∧
  unlabelled_gauge (update self now1 now2 w).2 MONTHLY_ACTIVE_USERS = true ∧
  users (update self now1 now2 w).2 = users w ∧
  io_loop (update self now1 now2 w).2 = io_loop w.
Proof.
  intros Hd Hm.
  destruct (unlabelled_gauge_inv _ _ Hd) as (md & vd & Hd1 & Hd2 & Hd3).
  destruct (unlabelled_gauge_inv _ _ Hm) as (mm & vm & Hm1 & Hm2 & Hm3).
  rewrite (update_run self w md mm vd vm Hd1 Hd2 Hd3 Hm1 Hm2 Hm3 now1 now2).
  unfold gauge_value, unlabelled_gauge. simpl.
  rewrite lookup_insert_ne by (apply not_eq_sym, DAILY_ne_MONTHLY).
  rewrite !lookup_insert_eq. simpl. rewrite !lookup_insert_eq.
  rewrite Hd3, Hm3. repeat split; reflexivity.
Qed.

(** X3: after an [update] whose second clock reading is not more than 29
    days after the first, as for any two readings taken in a row, the daily
    gauge is at most the monthly gauge, and the monthly gauge at most the
    number of users. *)
Theorem update_gauges_ordered
    (self : PeriodicMetricsCollector) (now1 now2 : datetime) (w : World) :
  unlabelled_gauge w DAILY_ACTIVE_USERS = true →
  unlabelled_gauge w MONTHLY_ACTIVE_USERS = true →
  now2 <= now1 + 29 * 24 * 3600 * 1000000 →
  ∃ daily monthly : nat,
    gauge_value (update self now1 now2 w).2 DAILY_ACTIVE_USERS []
    = Some (inject_Z (Z.of_nat daily)) ∧
    gauge_value (update self now1 now2 w).2 MONTHLY_ACTIVE_USERS []
    = Some (inject_Z (Z.of_nat monthly)) ∧
    (daily <= monthly)%nat ∧ (monthly <= length (users w))%nat.
Proof.
  intros Hd Hm Hnow.
  destruct (update_gauge_values self now1 now2 w Hd Hm)
    as (_ & Hdaily & Hmonthly & _).
  eexists _, _. split; [exact Hdaily |]. split; [exact Hmonthly |]. split.
  - apply count_active_since_antitone. unfold days_30, hours_24. lia.
  - apply count_active_since_le_length.
Qed.

Lemma update_gauges_ordered_witness :
  ∃ daily monthly : nat,
    gauge_value (update sample_collector sample_now (sample_now + 7) sample_world).2
      DAILY_ACTIVE_USERS [] = Some (inject_Z (Z.of_nat daily)) ∧
    gauge_value (update sample_collector sample_now (sample_now + 7) sample_world).2
      MONTHLY_ACTIVE_USERS [] = Some (inject_Z (Z.of_nat monthly)) ∧
    (daily <= monthly)%nat ∧ (monthly <= length (users sample_world))%nat.
Proof.
  apply (update_gauges_ordered sample_collector sample_now (sample_now + 7)
           sample_world).
  - vm_compute. reflexivity.
  - vm_compute. reflexivity.
  - vm_compute. discriminate.
Defined.

(** X4: the cutoffs are inclusive and a missing timestamp never counts.  A
    user whose last activity is exactly 24 hours before the clock reading
    raises the daily count by one; a user who was never active changes
    neither gauge. *)
Theorem update_counts_at_the_cutoff
    (self : PeriodicMetricsCollector) (now : datetime) (w : World) (u : orm.User) :
  unlabelled_gauge w DAILY_ACTIVE_USERS = true →
  unlabelled_gauge w MONTHLY_ACTIVE_USERS = true →
  (orm.last_activity u = Some (now - hours_24) →
   gauge_value (update self now now (add_user u w)).2 DAILY_ACTIVE_USERS []
   = Some (inject_Z (Z.of_nat
             (S (orm.count_active_since (now - hours_24) (users w)))))) ∧
  (orm.last_activity u = None →
   gauge_value (update self now now (add_user u w)).2 DAILY_ACTIVE_USERS []
   = gauge_value (update self now now w).2 DAILY_ACTIVE_USERS [] ∧
   gauge_value (update self now now (add_user u w)).2 MONTHLY_ACTIVE_USERS []
   = gauge_value (update self now now w).2 MONTHLY_ACTIVE_USERS []).
Proof.
  intros Hd Hm.
  destruct (update_gauge_values self now now w Hd Hm) as (_ & Hd0 & Hm0 & _).
  destruct (update_gauge_values self now now (add_user u w) Hd Hm)
    as (_ & Hd1 & Hm1 & _).
  rewrite Hd0, Hm0, Hd1, Hm1. simpl.
  unfold orm.count_active_since. simpl.
  split; intros Hu.
  - assert (orm.active_since (now - hours_24) u = true) as ->; [| reflexivity].
    unfold orm.active_since. rewrite Hu. apply Z.leb_refl.
  - assert (∀ c, orm.active_since c u = false) as Hnever.
    { intros c. unfold orm.active_since. now rewrite Hu. }
    rewrite !Hnever. split; reflexivity.
Qed.

Lemma update_counts_at_the_cutoff_witness :
  gauge_value
    (update sample_collector sample_now sample_now
       (add_user (orm.mkUser "dee" (Some (sample_now - hours_24))) sample_world)).2
    DAILY_ACTIVE_USERS [] = Some 2%Q.
Proof.
  assert (unlabelled_gauge sample_world DAILY_ACTIVE_USERS = true) as Hd
    by (vm_compute; reflexivity).
  assert (unlabelled_gauge sample_world MONTHLY_ACTIVE_USERS = true) as Hm
    by (vm_compute; reflexivity).
  destruct (update_counts_at_the_cutoff sample_collector sample_now sample_world
              (orm.mkUser "dee" (Some (sample_now - hours_24))) Hd Hm)
    as [Hat _].
  rewrite (Hat eq_refl). reflexivity.
Defined.

(** ** Starting the collector *)



(** ** The series of the request histogram *)

Lemma str_of_Z_inj (a b : Z) : str_of_Z a = str_of_Z b → a = b.
Proof.
  unfold str_of_Z. intros H.
  assert (∀ z, NilZero.int_of_string (NilZero.string_of_int (Z.to_int z))
               = Some (Z.to_int z)) as Hparse.
  { intros z. apply NilZero.isi.
    - intros E. pose proof (DecimalZ.of_to z) as Hz. rewrite E in Hz.
      subst z. discriminate E.
    - intros E. pose proof (DecimalZ.of_to z) as Hz. rewrite E in Hz.
      subst z. discriminate E. }
  apply DecimalZ.to_int_inj.
  pose proof (Hparse a) as Ha. rewrite H, Hparse in Ha. congruence.
Qed.

(** The series of two request contexts are the same exactly when the
    contexts agree on the method, the handler label and the status code. *)
Lemma recorded_keys_agree
    (h1 h2 : RequestHandler) (r1 r2 : HTTPServerRequest)
    (k1 k2 : list string) (x1 x2 : Q) :
  request h1 = Some r1 → request h2 = Some r2 →
  recorded h1 = Some (k1, x1) → recorded h2 = Some (k2, x2) →
  k1 = k2 ↔
  method r1 = method r2 ∧ handler_label h1 = handler_label h2 ∧
  get_status h1 = get_status h2.
Proof.
  intros Hr1 Hr2. unfold recorded. rewrite Hr1, Hr2. simpl.
  destruct (method r1) as [m1 |]; [| discriminate].
  destruct (method r2) as [m2 |]; [| discriminate]. simpl.
  destruct (get_status h1) as [c1 |]; [| discriminate].
  destruct (get_status h2) as [c2 |]; [| discriminate]. simpl.
  destruct (request_time r1) as [a1 |]; [| discriminate].
  destruct (request_time r2) as [a2 |]; [| discriminate]. simpl.
  destruct (as_number a1); [| discriminate].
  destruct (as_number a2); [| discriminate]. simpl.
  intros [= <- _] [= <- _]. split.
  - intros [= -> -> Hc]. apply str_of_Z_inj in Hc. now subst.
  - intros ([= ->] & -> & [= ->]). reflexivity.
Qed.

(** ** Series without observations *)

Lemma only_adds_empty_series_refl w : only_adds_empty_series w w.
Proof. unfold only_adds_empty_series. repeat split; auto. Qed.

Lemma only_adds_empty_series_trans w1 w2 w3 :
  only_adds_empty_series w1 w2 → only_adds_empty_series w2 w3 →
  only_adds_empty_series w1 w3.
Proof.
  intros (Hu1 & Hl1 & Ht1 & Hs1 & Hg1 & Ho1) (Hu2 & Hl2 & Ht2 & Hs2 & Hg2 & Ho2).
  unfold only_adds_empty_series.
  split; [congruence |]. split; [congruence |]. split; [congruence |].
  split; [intros name; now rewrite Hs2, Hs1 |].
  split; [intros name lv; now rewrite Hg2, Hg1 |].
  intros name lv.
  destruct (Ho1 name lv) as [E1 | [E1 E1']], (Ho2 name lv) as [E2 | [E2 E2']].
  - left. congruence.
  - right. split; congruence.
  - right. split; congruence.
  - congruence.
Qed.

(** What exists keeps existing. *)
Lemma only_adds_empty_series_is_Some w w' name lv :
  only_adds_empty_series w w' →
  is_Some (observations w name lv) → is_Some (observations w' name lv).
Proof.
  intros (_ & _ & _ & _ & _ & Ho) [l Hl].
  destruct (Ho name lv) as [E | [E _]]; [rewrite E; eauto | congruence].
Qed.

Lemma with_series_adds_empty w name m ub obs key :
  REGISTRY w !! name = Some m → _samples m = HistogramValues ub obs →
  obs !! key = None →
  only_adds_empty_series w (with_series name m ub obs key [] w).
Proof.
  intros Hm Hs Hk. unfold only_adds_empty_series, observations, gauge_value.
  simpl. split; [reflexivity |]. split; [reflexivity |]. split; [reflexivity |].
  split; [| split]; intros n; try intros lv;
    (destruct (decide (name = n)) as [<- |];
     [rewrite lookup_insert_eq, Hm; simpl | now rewrite lookup_insert_ne; auto]).
  - f_equal. unfold schema, _type, _upper_bounds. simpl. now rewrite Hs.
  - now rewrite Hs.
  - rewrite Hs. destruct (decide (key = lv)) as [<- |].
    + right. now rewrite lookup_insert_eq.
    + left. now rewrite lookup_insert_ne.
Qed.

Lemma with_series_labelled w name m ub obs key l labelnames :
  _labelnames m = labelnames →
  labelled_histogram (with_series name m ub obs key l w) name labelnames = true.
Proof.
  intros Hl. unfold labelled_histogram. simpl.
  rewrite lookup_insert_eq. simpl. now apply bool_decide_eq_true.
Qed.

(** One turn of a registration loop. *)
Lemma labels_status_run w metric m ub obs (v : string) :
  REGISTRY w !! metric = Some m → _samples m = HistogramValues ub obs →
  _labelnames m = ["status"] →
  labels metric [("status", v)] w =
    (Ok [v],
     match obs !! [v] with
     | Some _ => w
     | None => with_series metric m ub obs [v] [] w
     end).
Proof.
  intros Hm Hs Hl. unfold labels. run. rewrite Hm, Hl.
  rewrite bool_decide_eq_false_2 by discriminate.
  rewrite bool_decide_eq_true_2 by reflexivity. simpl.
  rewrite Hs. simpl.
  destruct (obs !! [v]) as [l |] eqn:Hk.
  - rewrite bool_decide_eq_true_2 by eauto. reflexivity.
  - rewrite bool_decide_eq_false_2 by (intros [? ?]; discriminate).
    reflexivity.
Qed.

Lemma registration_loop (E : Type) `{HasStr E} (metric : string) (xs : list E) :
  ∀ w, labelled_histogram w metric ["status"] = true →
  ∃ w', for_ xs (λ s, labels metric [("status", str s)];; mret tt) w = (Ok tt, w') ∧
        labelled_histogram w' metric ["status"] = true ∧
        only_adds_empty_series w w' ∧
        (∀ s, s ∈ xs → is_Some (observations w' metric [str s])) ∧
        ((∀ s, s ∈ xs → is_Some (observations w metric [str s])) → w' = w).
Proof.
  induction xs as [| x xs IH]; intros w Hh.
  - exists w. split; [reflexivity |]. split; [exact Hh |].
    split; [apply only_adds_empty_series_refl |].
    split; [intros s Hs; inversion Hs | reflexivity].
  - destruct (labelled_histogram_inv _ _ _ Hh) as (m & ub & obs & Hm & Hs & Hl).
    assert (observations w metric [str x] = obs !! [str x]) as Hobs.
    { unfold observations. rewrite Hm. simpl. now rewrite Hs. }
    set (w1 := match obs !! [str x] with
               | Some _ => w
               | None => with_series metric m ub obs [str x] [] w
               end).
    assert (labelled_histogram w1 metric ["status"] = true ∧
            only_adds_empty_series w w1 ∧
            is_Some (observations w1 metric [str x]) ∧
            (is_Some (observations w metric [str x]) → w1 = w))
      as (Hh1 & Hadd1 & Hx1 & Hsame1).
    { subst w1. destruct (obs !! [str x]) as [l |] eqn:Hk.
      - split; [exact Hh |]. split; [apply only_adds_empty_series_refl |].
        split; [rewrite Hobs; eauto | reflexivity].
      - split; [now apply with_series_labelled |].
        split; [now apply with_series_adds_empty |].
        split.
        + unfold observations. simpl. rewrite lookup_insert_eq. simpl.
          rewrite lookup_insert_eq. eauto.
        + rewrite Hobs. intros [? ?]. discriminate. }
    destruct (IH w1 Hh1) as (w' & Hrun & Hh' & Hadd & Hall & Hsame).
    exists w'. split.
    { simpl. erewrite bind_Ok; [exact Hrun |].
      erewrite bind_Ok; [reflexivity |].
      now apply labels_status_run. }
    split; [exact Hh' |].
    split; [eapply only_adds_empty_series_trans; eauto |].
    split.
    + intros s Hin. apply elem_of_cons in Hin as [-> | Hin]; [| now apply Hall].
      eapply only_adds_empty_series_is_Some; eauto.
    + intros Hpresent.
      assert (w1 = w) as Hw1 by (apply Hsame1, Hpresent; left).
      rewrite <- Hw1. apply Hsame. intros s Hin. rewrite Hw1.
      apply Hpresent. now right.
Qed.

(** X8: the registration loop [for s in E: metric.labels(status=s)], on any
    histogram with the single label [status] and for any enumeration,
    returns normally and leaves a series for every member.  It only adds
    series without observations: a series that existed keeps its
    observations, and nothing else changes.  Running the loop again changes
    nothing at all. *)
Theorem create_empty_metrics_keeps_observations
    (E : Type) `{Enum E, HasStr E} (metric : string) (w : World) :
  labelled_histogram w metric ["status"] = true →
  let w' := (create_empty_metrics E metric w).2 in
  (create_empty_metrics E metric w).1 = Ok tt ∧
  (∀ s : E, s ∈ enum_members → is_Some (observations w' metric [str s])) ∧
  only_adds_empty_series w w' ∧
  create_empty_metrics E metric w' = (Ok tt, w').
Proof.
  intros Hh w'. unfold create_empty_metrics in *.
  destruct (registration_loop E metric enum_members w Hh)
    as (w1 & Hrun & Hh1 & Hadd & Hall & _).
  subst w'. rewrite Hrun. simpl.
  split; [reflexivity |]. split; [exact Hall |]. split; [exact Hadd |].
  destruct (registration_loop E metric enum_members w1 Hh1)
    as (w2 & Hrun2 & _ & _ & _ & Hsame).
  rewrite Hrun2. f_equal. now apply Hsame.
Qed.

Lemma create_empty_metrics_keeps_observations_witness :
  create_empty_metrics ServerSpawnStatus.t SERVER_SPAWN_DURATION_SECONDS sample_world
  = (Ok tt, sample_world).
Proof.
  assert (labelled_histogram sample_world SERVER_SPAWN_DURATION_SECONDS ["status"]
          = true) as Hh by (vm_compute; reflexivity).
  destruct (create_empty_metrics_keeps_observations ServerSpawnStatus.t
              SERVER_SPAWN_DURATION_SECONDS sample_world Hh)
    as (_ & _ & _ & Hagain).
  assert ((create_empty_metrics ServerSpawnStatus.t SERVER_SPAWN_DURATION_SECONDS
             sample_world).2 = sample_world) as Hsame by (vm_compute; reflexivity).
  rewrite Hsame in Hagain. exact Hagain.
Defined.

(** ** The hook, call after call *)

(** The hook on a request context that provides all it extracts. *)
Lemma prometheus_log_method_recorded w m ub obs handler key x :
  REGISTRY w !! REQUEST_DURATION_SECONDS = Some m →
  _samples m = HistogramValues ub obs →
  _labelnames m = REQUEST_LABELNAMES →
  recorded handler = Some (key, x) →
  prometheus_log_method handler w =
    (Ok tt,
     with_series REQUEST_DURATION_SECONDS m ub obs key
       (default [] (obs !! key) ++ [x]) w).
Proof.
  intros Hm Hs Hl. rewrite (prometheus_log_method_run w m ub obs Hm Hs Hl).
  unfold recorded.
  destruct (request handler) as [req |]; [| discriminate]. simpl.
  destruct (method req) as [v |]; [| discriminate]. simpl.
  destruct (get_status handler) as [code |]; [| discriminate]. simpl.
  destruct (request_time req) as [amount |]; [| discriminate]. simpl.
  destruct (as_number amount) as [y |]; [| discriminate]. simpl.
  intros [= <- <-]. reflexivity.
Qed.

(** X9: the hook asks for the series before it asks for the duration.  For a
    request context with a method and a status code but without a duration,
    or with one that is not a number, it raises with the series of these
    labels in the registry, created without observations if it was not
    there; that apart, the world is as before.  When the request, the
    method or the status code is missing, it raises before the registry is
    touched and the world is unchanged. *)
Theorem prometheus_log_method_failure_leaves_series
    (handler : RequestHandler) (w : World) :
  labelled_histogram w REQUEST_DURATION_SECONDS REQUEST_LABELNAMES = true →
  let w' := (prometheus_log_method handler w).2 in
  (∀ req http_method code,
     request handler = Some req → method req = Some http_method →
     get_status handler = Some code →
     request_time req ≫= as_number = None →
     (∃ e, (prometheus_log_method handler w).1 = Raise e) ∧
     only_adds_empty_series w w' ∧
     is_Some (observations w' REQUEST_DURATION_SECONDS
                [http_method; handler_label handler; str_of_Z code])) ∧
  (request handler ≫= method = None ∨ get_status handler = None →
   (∃ e, (prometheus_log_method handler w).1 = Raise e) ∧ w' = w).
Proof.
  intros Hh w'.
  destruct (labelled_histogram_inv _ _ _ Hh) as (m & ub & obs & Hm & Hs & Hl).
  pose proof (prometheus_log_method_run w m ub obs Hm Hs Hl handler) as Hrun.
  subst w'. split.
  - intros req v code Hreq Hv Hcode Hnum.
    rewrite Hreq, Hv, Hcode in Hrun. cbv zeta in Hrun.
    set (key := [v; handler_label handler; str_of_Z code]).
    change [v; handler_label handler; str code] with key in Hrun.
    assert (observations w REQUEST_DURATION_SECONDS key = obs !! key) as Hobs.
    { unfold observations. rewrite Hm. simpl. now rewrite Hs. }
    assert (only_adds_empty_series w
              match obs !! key with
              | Some _ => w
              | None => with_series REQUEST_DURATION_SECONDS m ub obs key [] w
              end ∧
            is_Some (observations
              match obs !! key with
              | Some _ => w
              | None => with_series REQUEST_DURATION_SECONDS m ub obs key [] w
              end REQUEST_DURATION_SECONDS key)) as [Hadd Hsome].
    { destruct (obs !! key) as [l |] eqn:Hk.
      - split; [apply only_adds_empty_series_refl | rewrite Hobs; eauto].
      - split; [now apply with_series_adds_empty |].
        unfold observations. simpl. rewrite lookup_insert_eq. simpl.
        rewrite lookup_insert_eq. eauto. }
    destruct (request_time req) as [amount |]; simpl in Hnum.
    + rewrite Hnum in Hrun. rewrite Hrun. simpl. eauto.
    + rewrite Hrun. simpl. eauto.
  - intros Hmissing.
    destruct (request handler) as [req |]; [| rewrite Hrun; simpl; eauto].
    simpl in Hmissing.
    destruct (method req) as [v |]; [| rewrite Hrun; simpl; eauto].
    destruct Hmissing as [Hmissing | Hmissing]; [discriminate |].
    rewrite Hmissing in Hrun. rewrite Hrun. simpl. eauto.
Qed.

Lemma prometheus_log_method_failure_leaves_series_witness :
  observations sample_world REQUEST_DURATION_SECONDS
    ["GET"; "jupyterhub.handlers.pages.HomeHandler"; "200"] = None ∧
  is_Some (observations
             (prometheus_log_method handler_without_duration sample_world).2
             REQUEST_DURATION_SECONDS
             ["GET"; "jupyterhub.handlers.pages.HomeHandler"; "200"]).
Proof.
  split; [vm_compute; reflexivity |].
  assert (labelled_histogram sample_world REQUEST_DURATION_SECONDS
            REQUEST_LABELNAMES = true) as Hh by (vm_compute; reflexivity).
  destruct (prometheus_log_method_failure_leaves_series handler_without_duration
              sample_world Hh) as [Hlate _].
  destruct (Hlate _ "GET" 200 eq_refl eq_refl eq_refl eq_refl) as (_ & _ & Hs).
  exact Hs.
Defined.

Lemma durations_for_cons key handler handlers k x :
  recorded handler = Some (k, x) →
  durations_for key (handler :: handlers)
  = (if decide (k = key) then [x] else []) ++ durations_for key handlers.
Proof.
  intros Hr. unfold durations_for. simpl. rewrite Hr.
  destruct (decide (k = key)); reflexivity.
Qed.

(** X10: for any sequence of request contexts that provide all the hook
    extracts, calling the hook on each in turn returns normally, and every
    series of the request histogram then holds what it held before followed
    by the durations of the requests with its labels, in the order of the
    requests. *)
Theorem prometheus_log_method_sequence
    (handlers : list RequestHandler) (w : World) :
  labelled_histogram w REQUEST_DURATION_SECONDS REQUEST_LABELNAMES = true →
  Forall (λ handler, is_Some (recorded handler)) handlers →
  let w' := (for_ handlers prometheus_log_method w).2 in
  (for_ handlers prometheus_log_method w).1 = Ok tt ∧
  ∀ key,
    default [] (observations w' REQUEST_DURATION_SECONDS key)
    = default [] (observations w REQUEST_DURATION_SECONDS key)
      ++ durations_for key handlers.
Proof.
  revert w. induction handlers as [| handler handlers IH]; intros w Hh Hall.
  - simpl. split; [reflexivity |]. intros key.
    unfold durations_for. simpl. now rewrite app_nil_r.
  - apply Forall_cons in Hall as [[[k x] Hr] Hall].
    destruct (labelled_histogram_inv _ _ _ Hh) as (m & ub & obs & Hm & Hs & Hl).
    pose proof (prometheus_log_method_recorded w m ub obs handler k x
                  Hm Hs Hl Hr) as Hrun.
    set (w1 := with_series REQUEST_DURATION_SECONDS m ub obs k
                 (default [] (obs !! k) ++ [x]) w) in *.
    assert (labelled_histogram w1 REQUEST_DURATION_SECONDS REQUEST_LABELNAMES
            = true) as Hh1 by now apply with_series_labelled.
    destruct (IH w1 Hh1 Hall) as [Hok Hseries].
    cbn [for_]. erewrite bind_Ok; [| exact Hrun].
    split; [exact Hok |].
    intros key. rewrite Hseries, (durations_for_cons key _ _ k x Hr), app_assoc.
    f_equal.
    unfold observations, w1. simpl. rewrite lookup_insert_eq, Hm. simpl.
    rewrite Hs.
    destruct (decide (k = key)) as [<- |].
    + now rewrite lookup_insert_eq.
    + rewrite lookup_insert_ne by done. now rewrite app_nil_r.
Qed.

Lemma prometheus_log_method_sequence_witness :
  default []
    (observations
       (for_ [sample_handler; with_uri "/hub/admin" sample_handler]
          prometheus_log_method sample_world).2
       REQUEST_DURATION_SECONDS
       ["GET"; "jupyterhub.handlers.pages.HomeHandler"; "200"])
  = [0.25%Q; 0.25%Q].
Proof.
  assert (labelled_histogram sample_world REQUEST_DURATION_SECONDS
            REQUEST_LABELNAMES = true) as Hh by (vm_compute; reflexivity).
  assert (Forall (λ handler, is_Some (recorded handler))
            [sample_handler; with_uri "/hub/admin" sample_handler]) as Hall.
  { repeat constructor; eexists; reflexivity. }
  destruct (prometheus_log_method_sequence _ sample_world Hh Hall) as [_ Hseries].
  rewrite Hseries. vm_compute. reflexivity.
Defined.

(** ** The hook and the collector side by side *)

(** [update] does not mind a change to a metric that is not one of its two
    gauges. *)
Lemma update_after_registry_change self now1 now2 w name m' :
  name ≠ DAILY_ACTIVE_USERS → name ≠ MONTHLY_ACTIVE_USERS →
  unlabelled_gauge w DAILY_ACTIVE_USERS = true →
  unlabelled_gauge w MONTHLY_ACTIVE_USERS = true →
  update self now1 now2 (set_REGISTRY (<[name := m']> (REGISTRY w)) w) =
    (Ok tt,
     set_REGISTRY (<[name := m']> (REGISTRY (update self now1 now2 w).2))
       (update self now1 now2 w).2).
Proof.
  intros Hnd Hnm Hd Hm.
  destruct (unlabelled_gauge_inv _ _ Hd) as (md & vd & Hd1 & Hd2 & Hd3).
  destruct (unlabelled_gauge_inv _ _ Hm) as (mm & vm & Hm1 & Hm2 & Hm3).
  rewrite (update_run self w md mm vd vm Hd1 Hd2 Hd3 Hm1 Hm2 Hm3 now1 now2).
  rewrite (update_run self (set_REGISTRY (<[name := m']> (REGISTRY w)) w)
             md mm vd vm); try assumption.
  - unfold set_REGISTRY. simpl. f_equal. f_equal.
    rewrite (insert_insert_ne _ name MONTHLY_ACTIVE_USERS) by exact Hnm.
    rewrite (insert_insert_ne _ name DAILY_ACTIVE_USERS) by exact Hnd.
    reflexivity.
  - simpl. now rewrite lookup_insert_ne.
  - simpl. now rewrite lookup_insert_ne.
Qed.

(** What the hook does depends on the request histogram alone. *)
Lemma prometheus_log_method_shape w w2 m ub obs handler :
  REGISTRY w !! REQUEST_DURATION_SECONDS = Some m →
  REGISTRY w2 !! REQUEST_DURATION_SECONDS = Some m →
  _samples m = HistogramValues ub obs →
  _labelnames m = REQUEST_LABELNAMES →
  (prometheus_log_method handler w2).1 = (prometheus_log_method handler w).1 ∧
  ((prometheus_log_method handler w).2 = w ∧
   (prometheus_log_method handler w2).2 = w2 ∨
   ∃ key l,
     (prometheus_log_method handler w).2
     = with_series REQUEST_DURATION_SECONDS m ub obs key l w ∧
     (prometheus_log_method handler w2).2
     = with_series REQUEST_DURATION_SECONDS m ub obs key l w2).
Proof.
  intros Hm Hm2 Hs Hl.
  rewrite (prometheus_log_method_run w m ub obs Hm Hs Hl).
  rewrite (prometheus_log_method_run w2 m ub obs Hm2 Hs Hl).
  destruct (request handler) as [req |]; [| simpl; auto].
  destruct (method req) as [v |]; [| simpl; auto].
  destruct (get_status handler) as [code |]; [| simpl; auto].
  cbv zeta.
  destruct (obs !! [v; handler_label handler; str code]) as [l |];
    destruct (request_time req) as [amount |];
    try destruct (as_number amount) as [x |]; simpl; eauto 6.
Qed.

(** X11: the hook and the collector do not get in each other's way.  On a
    world with the request histogram and the two gauges, the hook followed
    by [update] and [update] followed by the hook leave the same world, the
    hook has the same outcome either way, and [update] returns normally
    after the hook, whether or not the hook raised. *)
Theorem hook_and_update_commute
    (self : PeriodicMetricsCollector) (now1 now2 : datetime)
    (handler : RequestHandler) (w : World) :
  labelled_histogram w REQUEST_DURATION_SECONDS REQUEST_LABELNAMES = true →
  unlabelled_gauge w DAILY_ACTIVE_USERS = true →
  unlabelled_gauge w MONTHLY_ACTIVE_USERS = true →
  let after_update := (update self now1 now2 w).2 in
  let after_hook := (prometheus_log_method handler w).2 in
  (prometheus_log_method handler after_update).2
  = (update self now1 now2 after_hook).2 ∧
  (prometheus_log_method handler after_update).1
  = (prometheus_log_method handler w).1 ∧
  (update self now1 now2 after_hook).1 = Ok tt.
Proof.
  intros Hh Hd Hm after_update after_hook.
  destruct (labelled_histogram_inv _ _ _ Hh) as (m & ub & obs & Hreg & Hs & Hl).
  assert (REGISTRY after_update !! REQUEST_DURATION_SECONDS = Some m) as Hreg2.
  { destruct (unlabelled_gauge_inv _ _ Hd) as (md & vd & Hd1 & Hd2 & Hd3).
    destruct (unlabelled_gauge_inv _ _ Hm) as (mm & vm & Hm1 & Hm2 & Hm3).
    subst after_update.
    rewrite (update_run self w md mm vd vm Hd1 Hd2 Hd3 Hm1 Hm2 Hm3 now1 now2).
    simpl. now rewrite !lookup_insert_ne by discriminate. }
  destruct (prometheus_log_method_shape w after_update m ub obs handler
              Hreg Hreg2 Hs Hl) as [Hres [[Hw Hw2] | (key & l & Hw & Hw2)]].
  - fold after_hook in Hw. rewrite Hw, Hw2.
    split; [reflexivity |]. split; [exact Hres |].
    apply (update_gauge_values self now1 now2 w Hd Hm).
  - fold after_hook in Hw. rewrite Hw, Hw2. unfold with_series.
    rewrite update_after_registry_change by (assumption || discriminate).
    split; [reflexivity |]. split; [exact Hres | reflexivity].
Qed.

Lemma hook_and_update_commute_witness :
  (prometheus_log_method sample_handler
     (update sample_collector sample_now sample_now sample_world).2).2
  = (update sample_collector sample_now sample_now
       (prometheus_log_method sample_handler sample_world).2).2.
Proof.
  apply (hook_and_update_commute sample_collector sample_now sample_now
           sample_handler sample_world); vm_compute; reflexivity.
Defined.

(** ** What the hook and the collector never do *)

Lemma with_series_observations w name m ub obs key l n lv :
  REGISTRY w !! name = Some m → _samples m = HistogramValues ub obs →
  observations (with_series name m ub obs key l w) n lv
  = if decide (n = name ∧ lv = key) then Some l else observations w n lv.
Proof.
  intros Hm Hs. unfold observations. simpl.
  destruct (decide (name = n)) as [<- |].
  - rewrite lookup_insert_eq, Hm. simpl. rewrite Hs.
    destruct (decide (key = lv)) as [<- |].
    + rewrite lookup_insert_eq. now rewrite decide_True.
    + rewrite lookup_insert_ne by done.
      rewrite decide_False; [reflexivity |]. intros [_ ->]. congruence.
  - rewrite lookup_insert_ne by done.
    rewrite decide_False; [reflexivity |]. intros [-> _]. congruence.
Qed.

Lemma with_series_gauge_value w name m ub obs key l n lv :
  REGISTRY w !! name = Some m → _samples m = HistogramValues ub obs →
  gauge_value (with_series name m ub obs key l w) n lv = gauge_value w n lv.
Proof.
  intros Hm Hs. unfold gauge_value. simpl.
  destruct (decide (name = n)) as [<- |].
  - rewrite lookup_insert_eq, Hm. simpl. now rewrite Hs.
  - now rewrite lookup_insert_ne.
Qed.

(** X12: whatever the request context and whether or not it raises, the hook
    only ever appends: every series keeps the observations it had, followed
    by at most one new one, and the hook changes no gauge, no row of the
    users table, no timer and no entry of the trace. *)
Theorem prometheus_log_method_only_appends
    (handler : RequestHandler) (w : World) :
  labelled_histogram w REQUEST_DURATION_SECONDS REQUEST_LABELNAMES = true →
  let w' := (prometheus_log_method handler w).2 in
  (∀ name labelvalues l,
     observations w name labelvalues = Some l →
     ∃ l', observations w' name labelvalues = Some (l ++ l') ∧
           (length l' <= 1)%nat) ∧
  (∀ name labelvalues,
     gauge_value w' name labelvalues = gauge_value w name labelvalues) ∧
  users w' = users w ∧ io_loop w' = io_loop w ∧ trace w' = trace w.
Proof.
  intros Hh w'.
  destruct (labelled_histogram_inv _ _ _ Hh) as (m & ub & obs & Hm & Hs & Hl).
  assert (∀ key, observations w REQUEST_DURATION_SECONDS key = obs !! key) as Hobs.
  { intros key. unfold observations. rewrite Hm. simpl. now rewrite Hs. }
  assert (∀ key l0,
            (obs !! key = None ∧ l0 = [] ∨
             ∃ x, l0 = default [] (obs !! key) ++ [x]) →
            let w1 := with_series REQUEST_DURATION_SECONDS m ub obs key l0 w in
            (∀ name labelvalues l,
               observations w name labelvalues = Some l →
               ∃ l', observations w1 name labelvalues = Some (l ++ l') ∧
                     (length l' <= 1)%nat) ∧
            (∀ name labelvalues,
               gauge_value w1 name labelvalues = gauge_value w name labelvalues) ∧
            users w1 = users w ∧ io_loop w1 = io_loop w ∧ trace w1 = trace w)
    as Hseries.
  { intros key l0 Hl0 w1. split; [| split; [| repeat split]].
    - intros name lv l Hbefore. subst w1.
      rewrite (with_series_observations _ _ _ _ _ _ _ _ _ Hm Hs).
      destruct (decide (name = REQUEST_DURATION_SECONDS ∧ lv = key))
        as [[-> ->] |].
      + rewrite Hobs in Hbefore.
        destruct Hl0 as [[Hnone _] | [x ->]]; [congruence |].
        rewrite Hbefore. simpl. exists [x]. split; [reflexivity | simpl; lia].
      + exists []. rewrite app_nil_r. split; [exact Hbefore | simpl; lia].
    - intros name lv. subst w1.
      now apply with_series_gauge_value. }
  assert ((∀ name labelvalues l,
             observations w name labelvalues = Some l →
             ∃ l', observations w name labelvalues = Some (l ++ l') ∧
                   (length l' <= 1)%nat) ∧
          (∀ name labelvalues,
             gauge_value w name labelvalues = gauge_value w name labelvalues) ∧
          users w = users w ∧ io_loop w = io_loop w ∧ trace w = trace w)
    as Hsame.
  { split; [| repeat split].
    intros name lv l Hbefore. exists []. rewrite app_nil_r.
    split; [exact Hbefore | simpl; lia]. }
  subst w'. rewrite (prometheus_log_method_run w m ub obs Hm Hs Hl).
  destruct (request handler) as [req |]; [| exact Hsame].
  destruct (method req) as [v |]; [| exact Hsame].
  destruct (get_status handler) as [code |]; [| exact Hsame].
  cbv zeta.
  set (key := [v; handler_label handler; str code]).
  assert (let w1 := match obs !! key with
                    | Some _ => w
                    | None => with_series REQUEST_DURATION_SECONDS m ub obs key [] w
                    end in
          (∀ name labelvalues l,
             observations w name labelvalues = Some l →
             ∃ l', observations w1 name labelvalues = Some (l ++ l') ∧
                   (length l' <= 1)%nat) ∧
          (∀ name labelvalues,
             gauge_value w1 name labelvalues = gauge_value w name labelvalues) ∧
          users w1 = users w ∧ io_loop w1 = io_loop w ∧ trace w1 = trace w)
    as Hearly.
  { destruct (obs !! key) eqn:Hk; [exact Hsame |]. apply Hseries. now left. }
  destruct (request_time req) as [amount |]; [| exact Hearly].
  destruct (as_number amount) as [x |]; [| exact Hearly].
  apply Hseries. right. eauto.
Qed.

Lemma prometheus_log_method_only_appends_witness :
  users (prometheus_log_method handler_with_malformed_duration sample_world).2
  = users sample_world ∧
  trace (prometheus_log_method sample_handler sample_world).2 = trace sample_world.
Proof.
  assert (labelled_histogram sample_world REQUEST_DURATION_SECONDS
            REQUEST_LABELNAMES = true) as Hh by (vm_compute; reflexivity).
  split.
  - apply (prometheus_log_method_only_appends handler_with_malformed_duration
             sample_world Hh).
  - apply (prometheus_log_method_only_appends sample_handler sample_world Hh).
Defined.

(** X13: the two gauges are overwritten, not accumulated: after [update]
    their values depend on the users table and the clock readings only, not
    on what the registry held before. *)
Theorem update_overwrites_gauges
    (self1 self2 : PeriodicMetricsCollector) (now1 now2 : datetime) (w1 w2 : World) :
  unlabelled_gauge w1 DAILY_ACTIVE_USERS = true →
  unlabelled_gauge w1 MONTHLY_ACTIVE_USERS = true →
  unlabelled_gauge w2 DAILY_ACTIVE_USERS = true →
  unlabelled_gauge w2 MONTHLY_ACTIVE_USERS = true →
  users w1 = users w2 →
  gauge_value (update self1 now1 now2 w1).2 DAILY_ACTIVE_USERS []
  = gauge_value (update self2 now1 now2 w2).2 DAILY_ACTIVE_USERS [] ∧
  gauge_value (update self1 now1 now2 w1).2 MONTHLY_ACTIVE_USERS []
  = gauge_value (update self2 now1 now2 w2).2 MONTHLY_ACTIVE_USERS [].
Proof.
  intros Hd1 Hm1 Hd2 Hm2 Hu.
  destruct (update_gauge_values self1 now1 now2 w1 Hd1 Hm1) as (_ & -> & -> & _).
  destruct (update_gauge_values self2 now1 now2 w2 Hd2 Hm2) as (_ & -> & -> & _).
  rewrite Hu. split; reflexivity.
Qed.

Lemma update_overwrites_gauges_witness :
  gauge_value
    (update sample_collector sample_now sample_now
       (update sample_collector 0 0 sample_world).2).2 DAILY_ACTIVE_USERS []
  = gauge_value (update disabled_collector sample_now sample_now sample_world).2
      DAILY_ACTIVE_USERS [].
Proof.
  apply (update_overwrites_gauges sample_collector disabled_collector
           sample_now sample_now (update sample_collector 0 0 sample_world).2
           sample_world); vm_compute; reflexivity.
Defined.

(** ** Requests that share a series *)

Lemma extractable_recorded (handler : RequestHandler) (req : HTTPServerRequest) :
  extractable handler = true → request handler = Some req →
  ∃ v code x,
    method req = Some v ∧ get_status handler = Some code ∧
    recorded handler = Some ([v; handler_label handler; str_of_Z code], x).
Proof.
  unfold extractable, recorded. intros He Hreq. rewrite Hreq in *. simpl.
  destruct (method req) as [v |]; [| discriminate].
  destruct (get_status handler) as [code |]; [| discriminate].
  destruct (request_time req) as [amount |]; [| discriminate]. simpl.
  apply bool_decide_eq_true in He. destruct He as [x Hx]. rewrite Hx. simpl.
  exists v, code, x. auto.
Qed.

(** One call of the hook on a request context that provides all it extracts
    raises the count of its series by one and no other count. *)
Lemma prometheus_log_method_counts handler w key x :
  labelled_histogram w REQUEST_DURATION_SECONDS REQUEST_LABELNAMES = true →
  recorded handler = Some (key, x) →
  labelled_histogram (prometheus_log_method handler w).2
    REQUEST_DURATION_SECONDS REQUEST_LABELNAMES = true ∧
  ∀ k, observation_count (prometheus_log_method handler w).2
         REQUEST_DURATION_SECONDS k
       = (observation_count w REQUEST_DURATION_SECONDS k
          + if decide (k = key) then 1 else 0)%nat.
Proof.
  intros Hh Hr.
  destruct (labelled_histogram_inv _ _ _ Hh) as (m & ub & obs & Hm & Hs & Hl).
  rewrite (prometheus_log_method_recorded w m ub obs handler key x Hm Hs Hl Hr).
  simpl. split; [now apply with_series_labelled |].
  intros k. unfold observation_count.
  rewrite (with_series_observations _ _ _ _ _ _ _ _ _ Hm Hs).
  assert (∀ k', observations w REQUEST_DURATION_SECONDS k' = obs !! k') as Hobs.
  { intros k'. unfold observations. rewrite Hm. simpl. now rewrite Hs. }
  destruct (decide (k = key)) as [-> |].
  - rewrite decide_True by auto. rewrite Hobs. simpl.
    rewrite length_app. simpl. destruct (obs !! key); simpl; lia.
  - rewrite decide_False by (intros [_ ?]; congruence). lia.
Qed.

(** X7: which requests share a series.  For two request contexts that
    provide all the hook extracts, calling the hook on one and then on the
    other raises the observation count of one same series of the
    request-duration histogram by two exactly when the two agree on the
    method, on the handler label and on the status code; otherwise the two
    observations go to two different series. *)
Theorem requests_share_a_series_iff_labels_agree
    (h1 h2 : RequestHandler) (r1 r2 : HTTPServerRequest) (w : World) :
  labelled_histogram w REQUEST_DURATION_SECONDS REQUEST_LABELNAMES = true →
  request h1 = Some r1 → request h2 = Some r2 →
  extractable h1 = true → extractable h2 = true →
  let w2 := (prometheus_log_method h2 (prometheus_log_method h1 w).2).2 in
  (∃ key, observation_count w2 REQUEST_DURATION_SECONDS key
          = S (S (observation_count w REQUEST_DURATION_SECONDS key))) ↔
  method r1 = method r2 ∧ handler_label h1 = handler_label h2 ∧
  get_status h1 = get_status h2.
Proof.
  intros Hh Hr1 Hr2 He1 He2 w2.
  destruct (extractable_recorded h1 r1 He1 Hr1) as (v1 & c1 & x1 & Hv1 & Hc1 & Hk1).
  destruct (extractable_recorded h2 r2 He2 Hr2) as (v2 & c2 & x2 & Hv2 & Hc2 & Hk2).
  destruct (prometheus_log_method_counts h1 w _ x1 Hh Hk1) as [Hh1 Hcount1].
  destruct (prometheus_log_method_counts h2 _ _ x2 Hh1 Hk2) as [_ Hcount2].
  fold w2 in Hcount2.
  rewrite <- (recorded_keys_agree h1 h2 r1 r2 _ _ x1 x2 Hr1 Hr2 Hk1 Hk2).
  split.
  - intros [key Hkey]. rewrite Hcount2, Hcount1 in Hkey.
    destruct (decide (key = [v1; handler_label h1; str_of_Z c1])) as [E1 |],
             (decide (key = [v2; handler_label h2; str_of_Z c2])) as [E2 |];
      try lia.
    congruence.
  - intros Hsame. exists [v1; handler_label h1; str_of_Z c1].
    rewrite Hcount2, Hcount1, <- Hsame.
    rewrite !decide_True by reflexivity. lia.
Qed.

Lemma requests_share_a_series_iff_labels_agree_witness :
  ∃ key,
    observation_count
      (prometheus_log_method (with_uri "/hub/admin" sample_handler)
         (prometheus_log_method sample_handler sample_world).2).2
      REQUEST_DURATION_SECONDS key
    = S (S (observation_count sample_world REQUEST_DURATION_SECONDS key)).
Proof.
  assert (labelled_histogram sample_world REQUEST_DURATION_SECONDS
            REQUEST_LABELNAMES = true) as Hh by (vm_compute; reflexivity).
  apply (requests_share_a_series_iff_labels_agree sample_handler
           (with_uri "/hub/admin" sample_handler) _ _ sample_world
           Hh eq_refl eq_refl eq_refl eq_refl).
  repeat split; reflexivity.
Defined.
